(** * secondNature: the renewable-energy dashboard of [mitigation.py]

    A shallow embedding of [create_renewable_dashboard] and of its callback
    [update_graphs], together with the parts of Python, of the [re] module
    and of pandas that these two functions exercise.

    Conventions of the embedding.
    - A DataFrame is the list of its rows, in index order; a column is the
      list of the values of one field; a boolean mask is a [list bool].
    - Text is [string]; a character is a code point below 256.
    - A missing cell (NaN) of the [Source] column is [None].  The columns
      [State] and [Fiscal Year] hold a string and an integer in every row.
    - A Python exception is the [Raise] branch of [Py.result].
    - Of [px.bar] and [px.line] the model keeps the frame, the colours and
      the title of the figure, and the one way in which they raise on the
      arguments of the callback. *)

From Stdlib Require Import String Ascii ZArith NArith Bool Arith Lia List.
From Stdlib Require Import Permutation Sorted DecimalString RelationClasses.
From Stdlib Require OrdersEx.
Import ListNotations.

Set Implicit Arguments.

(* ================================================================== *)
(** * Python built-ins *)
(* ================================================================== *)

Module Py.

Inductive exn : Set := TypeError | ValueError | IndexError | ZeroDivisionError.

Inductive result (A : Type) : Type :=
| Ok (a : A)
| Raise (e : exn).

Arguments Ok {A} a.
Arguments Raise {A} e.

Definition bind {A B : Type} (m : result A) (k : A -> result B) : result B :=
  match m with
  | Ok a => k a
  | Raise e => Raise e
  end.

(** [xs[i]] for a non-negative index. *)
Definition getitem {A : Type} (xs : list A) (i : nat) : result A :=
  match nth_error xs i with
  | Some x => Ok x
  | None => Raise IndexError
  end.

(** [xs[:n]] for a non-negative bound. *)
Definition slice_to {A : Type} (xs : list A) (n : nat) : list A := firstn n xs.

(** [str(n)] for an integer. *)
Definition str (n : Z) : string := NilZero.string_of_int (Z.to_int n).

(** [min(xs)] and [max(xs)] on integers: an empty argument is a
    [ValueError]; otherwise a left-to-right scan that keeps the first
    extremal element. *)
Definition min (xs : list Z) : result Z :=
  match xs with
  | [] => Raise ValueError
  | x :: rest => Ok (fold_left (fun m y => if (y <? m)%Z then y else m) rest x)
  end.

Definition max (xs : list Z) : result Z :=
  match xs with
  | [] => Raise ValueError
  | x :: rest => Ok (fold_left (fun m y => if (m <? y)%Z then y else m) rest x)
  end.

(** [sorted(xs)]: a stable sort that only ever asks [a < b].  All stable
    sorts compute the same list, so insertion stands for Timsort. *)
Section Sorted.
Context {A : Type} (lt : A -> A -> bool).

Fixpoint insert (x : A) (l : list A) : list A :=
  match l with
  | [] => [x]
  | y :: l' => if lt y x then y :: insert x l' else x :: y :: l'
  end.

Definition sorted (l : list A) : list A := fold_right insert [] l.
End Sorted.

(** The same sort when [a < b] itself may raise. *)
Section SortedRaising.
Context {A : Type} (lt : A -> A -> result bool).

Fixpoint insert_r (x : A) (l : list A) : result (list A) :=
  match l with
  | [] => Ok [x]
  | y :: l' =>
      bind (lt y x) (fun b =>
        if b then bind (insert_r x l') (fun r => Ok (y :: r))
        else Ok (x :: y :: l'))
  end.

Fixpoint sorted_r (l : list A) : result (list A) :=
  match l with
  | [] => Ok []
  | x :: l' => bind (sorted_r l') (insert_r x)
  end.
End SortedRaising.

(** [a < b] between cells of an object column: two strings compare by
    code point, NaN is a float and [float < str] is a [TypeError];
    [nan < nan] is [False]. *)
Definition lt_cell (a b : option string) : result bool :=
  match a, b with
  | Some x, Some y => Ok (String.ltb x y)
  | None, None => Ok false
  | _, _ => Raise TypeError
  end.

End Py.

Import Py.

Notation "x <- m ;; k" := (Py.bind m (fun x => k))
(at level 61, m at next level, right associativity).

(* ================================================================== *)
(** * The [re] module, as far as the pattern of the filter needs it *)
(* ================================================================== *)

Module Re.

(** [Py_UNICODE_TOLOWER] on the code points below 256. *)
Definition unicode_tolower (c : ascii) : ascii :=
  let n := N_of_ascii c in
  if (((65 <=? n) && (n <=? 90)) ||
      ((192 <=? n) && (n <=? 222) && negb (n =? 215)))%N
  then ascii_of_N (n + 32)
  else c.

(** One literal of the pattern against one character of the text: with
    [IGNORECASE] both are lowered first. *)
Definition char_match (ignorecase : bool) (p c : ascii) : bool :=
  if ignorecase then Ascii.eqb (unicode_tolower c) (unicode_tolower p)
  else Ascii.eqb c p.

(** A pattern made of literals and of [|] is the list of its branches. *)
Fixpoint branches (pat : string) : list string :=
  match pat with
  | EmptyString => [EmptyString]
  | String c rest =>
      if Ascii.eqb c "|" then EmptyString :: branches rest
      else match branches rest with
           | [] => [String c EmptyString]
           | b :: bs => String c b :: bs
           end
  end.

(** Does the literal match at the start of the text? *)
Fixpoint match_here (ignorecase : bool) (lit text : string) : bool :=
  match lit, text with
  | EmptyString, _ => true
  | String _ _, EmptyString => false
  | String p lit', String c text' =>
      char_match ignorecase p c && match_here ignorecase lit' text'
  end.

Definition match_at (ignorecase : bool) (alts : list string) (text : string) : bool :=
  existsb (fun lit => match_here ignorecase lit text) alts.

(** [re.compile(pat, flags).search(text) is not None]. *)
Fixpoint search_from (ignorecase : bool) (alts : list string) (text : string) : bool :=
  match text with
  | EmptyString => match_at ignorecase alts EmptyString
  | String _ text' =>
      match_at ignorecase alts text || search_from ignorecase alts text'
  end.

Definition search (pat : string) (ignorecase : bool) (text : string) : bool :=
  search_from ignorecase (branches pat) text.

End Re.

(* ================================================================== *)
(** * pandas *)
(* ================================================================== *)

Module Pd.

(** [series.str.contains(pat, case=case, na=na)] on an object column. *)
Definition str_contains (series : list (option string))
           (pat : string) (case na : bool) : list bool :=
  map (fun cell =>
         match cell with
         | Some s => Re.search pat (negb case) s
         | None => na
         end) series.

(** [~mask] and [mask1 & mask2]. *)
Definition invert (mask : list bool) : list bool := map negb mask.

Fixpoint mask_and (m1 m2 : list bool) : list bool :=
  match m1, m2 with
  | b1 :: m1', b2 :: m2' => (b1 && b2) :: mask_and m1' m2'
  | _, _ => []
  end.

(** [df[mask]]: the rows whose mask entry is [True]. *)
Fixpoint getitem_mask {A : Type} (df : list A) (mask : list bool) : list A :=
  match df, mask with
  | r :: df', b :: mask' =>
      if b then r :: getitem_mask df' mask' else getitem_mask df' mask'
  | _, _ => []
  end.

Section Values.
Context {A : Type} (eq_dec : forall x y : A, {x = y} + {x <> y}).

(** [series.unique()]: the distinct values in order of first appearance. *)
Fixpoint unique (series : list A) : list A :=
  match series with
  | [] => []
  | x :: rest =>
      x :: filter (fun y => if eq_dec x y then false else true) (unique rest)
  end.

(** [series.isin(values)]. *)
Definition isin (series : list A) (values : list A) : list bool :=
  map (fun x => if in_dec eq_dec x values then true else false) series.
End Values.

(** [series.isin(values)] when the column may hold NaN and the values
    are strings: NaN is none of them. *)
Definition isin_cells (series : list (option string)) (values : list string) : list bool :=
  map (fun cell =>
         match cell with
         | Some s => if in_dec string_dec s values then true else false
         | None => false
         end) series.

(** [df.groupby(keys).size().reset_index(name=...)]: rows with a missing
    key are dropped, the groups come sorted by key, one row per group
    with the number of its members. *)
Section GroupBy.
Context {K : Type} (eq_dec : forall x y : K, {x = y} + {x <> y})
        (lt : K -> K -> bool).

Fixpoint dropna (keys : list (option K)) : list K :=
  match keys with
  | [] => []
  | Some k :: rest => k :: dropna rest
  | None :: rest => dropna rest
  end.

Definition groupby_size (keys : list (option K)) : list (K * nat) :=
  let present := dropna keys in
  map (fun k => (k, count_occ eq_dec present k))
      (Py.sorted lt (unique eq_dec present)).
End GroupBy.

(** [df.head(n)]. *)
Definition head {A : Type} (n : nat) (df : list A) : list A := firstn n df.

End Pd.


(* ================================================================== *)
(** * [mitigation.py] *)
(* ================================================================== *)

(** One row of the dataset: the three columns the dashboard reads. *)
Record Row : Type := mkRow {
  Source : option string;
  State : string;
  Fiscal_Year : Z
}.

(** The controls of the layout and the two figures of the callback, with
    the arguments that carry data. *)
Record RangeSlider : Type := {
  slider_min : Z;
  slider_max : Z;
  slider_value : list Z;
  slider_marks : list (Z * string)
}.

Record Dropdown (V : Type) : Type := {
  dropdown_options : list (V * V);   (* label, value *)
  dropdown_value : list V
}.

Record Figure (X : Type) : Type := {
  data_frame : list (X * string * nat);
  color_discrete_sequence : list string;
  title : string
}.

(** What [create_renewable_dashboard] returns: the layout, and the two
    variables that [update_graphs] reads from the enclosing scope. *)
Record App : Type := {
  app_renewable : list Row;
  app_color_palette : list string;
  year_slider : RangeSlider;
  state_selector : Dropdown string;
  source_selector : Dropdown (option string)
}.

Definition cell_eq_dec (a b : option string) : {a = b} + {a <> b}.
Proof. decide equality. apply string_dec. Defined.

Definition pair_eq_dec {A B : Type}
  (decA : forall x y : A, {x = y} + {x <> y})
  (decB : forall x y : B, {x = y} + {x <> y})
  (p q : A * B) : {p = q} + {p <> q}.
Proof. decide equality. Defined.

(** [<] on the tuples that index a two-key grouping. *)
Definition lex_lt {A B : Type} (ltA : A -> A -> bool) (ltB : B -> B -> bool)
           (p q : A * B) : bool :=
  ltA (fst p) (fst q) || (negb (ltA (fst q) (fst p)) && ltB (snd p) (snd q)).

(** Line 8: the rows whose [Source] does not match the pattern. *)
Definition exclusion_pattern : string := "Consumption|Verification|Sold".

Definition renewable (dataset : list Row) : list Row :=
  Pd.getitem_mask dataset
    (Pd.invert (Pd.str_contains (map Source dataset) exclusion_pattern false false)).

(** Lines 11, 12 and 15. *)
Definition years (renewable : list Row) : list Z :=
  Py.sorted Z.ltb (Pd.unique Z.eq_dec (map Fiscal_Year renewable)).

Definition sources (renewable : list Row) : result (list (option string)) :=
  Py.sorted_r Py.lt_cell (Pd.unique cell_eq_dec (map Source renewable)).

Definition all_states (renewable : list Row) : list string :=
  Py.sorted String.ltb (Pd.unique string_dec (map State renewable)).

(** Line 18. *)
Definition state_counts (renewable : list Row) : list (string * nat) :=
  Pd.groupby_size string_dec String.ltb (map (fun r => Some (State r)) renewable).

Section Dashboard.

(** Line 19, [sort_values('count', ascending=False)].  pandas sorts with
    its default kind, which promises the order of the counts and nothing
    about rows of equal count; the routine is a parameter. *)
Variable sort_values_desc : list (string * nat) -> list (string * nat).

(** Lines 19 and 20. *)
Definition state_counts_sorted (renewable : list Row) : list (string * nat) :=
  sort_values_desc (state_counts renewable).

Definition top_10_states (renewable : list Row) : list string :=
  map fst (Pd.head 10 (state_counts_sorted renewable)).

Definition create_renewable_dashboard
           (dataset : list Row) (color_palette : list string) : result App :=
  let renewable := renewable dataset in
  let years := years renewable in
  sources <- sources renewable ;;
  let all_states := all_states renewable in
  let top_10_states := top_10_states renewable in
  lo <- Py.min years ;;
  hi <- Py.max years ;;
  Ok {| app_renewable := renewable;
        app_color_palette := color_palette;
        year_slider :=
          {| slider_min := lo;
             slider_max := hi;
             slider_value := [lo; hi];
             slider_marks := map (fun year => (year, Py.str year)) years |};
        state_selector :=
          {| dropdown_options := map (fun state => (state, state)) all_states;
             dropdown_value := top_10_states |};
        source_selector :=
          {| dropdown_options := map (fun source => (source, source)) sources;
             dropdown_value := sources |} |}.

End Dashboard.

(** Lines 88 to 93. *)
Definition filtered_data (renewable : list Row) (lo hi : Z)
           (selected_states selected_sources : list string) : list Row :=
  Pd.getitem_mask renewable
    (Pd.mask_and
       (Pd.mask_and
          (Pd.mask_and
             (map (fun y => (lo <=? y)%Z) (map Fiscal_Year renewable))
             (map (fun y => (y <=? hi)%Z) (map Fiscal_Year renewable)))
          (Pd.isin string_dec (map State renewable) selected_states))
       (Pd.isin_cells (map Source renewable) selected_sources)).

(** The key of a row in a grouping by the column [f] and by [Source]; a
    row without [Source] has no key. *)
Definition two_key {A : Type} (f : Row -> A) (r : Row) : option (A * string) :=
  option_map (pair (f r)) (Source r).

(** Lines 96 and 114: the frames handed to [px.bar] and [px.line]. *)
Definition table_a (rows : list Row) : list (string * string * nat) :=
  Pd.groupby_size (pair_eq_dec string_dec string_dec)
                  (lex_lt String.ltb String.ltb)
                  (map (two_key State) rows).

Definition table_b (rows : list Row) : list (Z * string * nat) :=
  Pd.groupby_size (pair_eq_dec Z.eq_dec string_dec)
                  (lex_lt Z.ltb String.ltb)
                  (map (two_key Fiscal_Year) rows).

(** [px.bar] and [px.line], as far as the callback depends on them.  The
    figure keeps the frame, the colour sequence and the title.  Each source
    of the frame takes its colour from the sequence at its position modulo
    the length of the sequence, so a frame with a row and an empty sequence
    is a [ZeroDivisionError]; a frame without rows asks for no colour. *)
Definition px_figure {X : Type} (frame : list (X * string * nat))
           (colours : list string) (text : string) : result (Figure X) :=
  match frame, colours with
  | _ :: _, [] => Raise ZeroDivisionError
  | _, _ => Ok {| data_frame := frame;
                  color_discrete_sequence := colours;
                  title := text |}
  end.

(** Lines 86 to 131. *)
Definition update_graphs (renewable : list Row) (color_palette : list string)
           (years_range : list Z) (selected_states selected_sources : list string)
  : result (Figure string * Figure Z) :=
  lo <- Py.getitem years_range 0 ;;
  hi <- Py.getitem years_range 1 ;;
  let filtered_data := filtered_data renewable lo hi selected_states selected_sources in
  state_chart <- px_figure (table_a filtered_data)
                   (Py.slice_to color_palette (List.length selected_sources))
                   "Renewable Energy by State" ;;
  time_chart <- px_figure (table_b filtered_data)
                   (Py.slice_to color_palette (List.length selected_sources))
                   ("Renewable Energy Over Time (" ++ Py.str lo ++ "-" ++ Py.str hi ++ ")")%string ;;
  Ok (state_chart, time_chart).

(** A Facet Selection: what the three controls send to the callback. *)
Record Selection : Type := {
  yearMin : Z;
  yearMax : Z;
  sel_states : list string;
  sel_sources : list string
}.

(** ** The callback among the objects of the interpreter *)

(** The objects the callback touches: frames, the palette list, and the two
    kinds of figure with the settings that [update_layout] and
    [update_traces] write into them.  A reference is a position in the heap. *)
Inductive object : Type :=
| DataFrame (rows : list Row)
| PyList (items : list string)
| BarFigure (figure : Figure string) (layout : list (string * string))
| LineFigure (figure : Figure Z) (layout : list (string * string))
             (line_width : option Z).

Definition heap : Type := list object.

(** A computation on the heap gives an outcome and the heap it leaves
    behind, also when it raises. *)
Definition run (A : Type) : Type := heap -> result A * heap.

Definition ret {A : Type} (a : A) : run A := fun h => (Ok a, h).

Definition lift {A : Type} (m : result A) : run A := fun h => (m, h).

Definition bind_run {A B : Type} (m : run A) (k : A -> run B) : run B :=
  fun h =>
    match m h with
    | (Ok a, h') => k a h'
    | (Raise e, h') => (Raise e, h')
    end.

Notation "x <~ m ;; k" := (bind_run m (fun x => k))
  (at level 61, m at next level, right associativity).

(** A new object gets the next position. *)
Definition new (o : object) : run nat := fun h => (Ok (length h), h ++ [o]).

Fixpoint store (h : heap) (r : nat) (o : object) : heap :=
  match h, r with
  | [], _ => []
  | _ :: h', 0 => o :: h'
  | x :: h', S r' => x :: store h' r' o
  end.

(** Reading the rows of a frame and the items of a list. *)
Definition frame_rows (r : nat) : run (list Row) :=
  fun h =>
    match nth_error h r with
    | Some (DataFrame rows) => (Ok rows, h)
    | _ => (Raise TypeError, h)
    end.

Definition list_items (r : nat) : run (list string) :=
  fun h =>
    match nth_error h r with
    | Some (PyList items) => (Ok items, h)
    | _ => (Raise TypeError, h)
    end.

(** [fig.update_layout(...)] and [fig.update_traces(line=dict(width=w))]
    change the figure in place; the newest setting of a key comes first. *)
Definition update_layout (r : nat) (settings : list (string * string)) : run unit :=
  fun h =>
    match nth_error h r with
    | Some (BarFigure f l) => (Ok tt, store h r (BarFigure f (settings ++ l)))
    | Some (LineFigure f l w) => (Ok tt, store h r (LineFigure f (settings ++ l) w))
    | _ => (Raise TypeError, h)
    end.

Definition update_traces_line_width (r : nat) (width : Z) : run unit :=
  fun h =>
    match nth_error h r with
    | Some (LineFigure f l _) => (Ok tt, store h r (LineFigure f l (Some width)))
    | _ => (Raise TypeError, h)
    end.

Definition state_chart_layout : list (string * string) :=
  [ ("legend_title_text", "Renewable Source");
    ("barmode", "stack");
    ("yaxis.categoryorder", "total ascending");
    ("margin", "l=20, r=20, t=40, b=20") ]%string.

Definition time_chart_layout : list (string * string) :=
  [ ("legend_title_text", "Renewable Source");
    ("hovermode", "x unified");
    ("margin", "l=20, r=20, t=40, b=20") ]%string.

(** Lines 86 to 131 again, with the objects: [renewable] and
    [color_palette] are the references the enclosing scope holds,
    [filtered_data] and the two figures are new objects, and the figures
    are changed in place after [px] has made them.  The result is the pair
    of references to the figures. *)
Definition update_graphs_run (renewable color_palette : nat)
           (years_range : list Z) (selected_states selected_sources : list string)
  : run (nat * nat) :=
  lo <~ lift (Py.getitem years_range 0) ;;
  hi <~ lift (Py.getitem years_range 1) ;;
  rows <~ frame_rows renewable ;;
  filtered_data <~ new (DataFrame (filtered_data rows lo hi selected_states
                                                 selected_sources)) ;;
  filtered_rows <~ frame_rows filtered_data ;;
  palette <~ list_items color_palette ;;
  bar <~ lift (px_figure (table_a filtered_rows)
                 (Py.slice_to palette (List.length selected_sources))
                 "Renewable Energy by State") ;;
  state_chart <~ new (BarFigure bar []) ;;
  _ <~ update_layout state_chart state_chart_layout ;;
  filtered_rows <~ frame_rows filtered_data ;;
  palette <~ list_items color_palette ;;
  line <~ lift (px_figure (table_b filtered_rows)
                  (Py.slice_to palette (List.length selected_sources))
                  ("Renewable Energy Over Time (" ++ Py.str lo ++ "-" ++ Py.str hi ++ ")")%string) ;;
  time_chart <~ new (LineFigure line [] None) ;;
  _ <~ update_layout time_chart time_chart_layout ;;
  _ <~ update_traces_line_width time_chart 3 ;;
  ret (state_chart, time_chart).

(** What the server sends back: the two figures as they stand in the heap
    when the callback has returned. *)
Definition rendered : Type :=
  (Figure string * list (string * string)) *
  (Figure Z * list (string * string) * option Z).

Definition respond (refs : nat * nat) : run rendered :=
  fun h =>
    match nth_error h (fst refs), nth_error h (snd refs) with
    | Some (BarFigure f l), Some (LineFigure g l' w) => (Ok ((f, l), (g, l', w)), h)
    | _, _ => (Raise TypeError, h)
    end.

(** One change of a control: the callback runs on the heap as the requests
    before it left it, and its figures are sent back. *)
Definition on_selection (renewable color_palette : nat) (sel : Selection)
  : run rendered :=
  refs <~ update_graphs_run renewable color_palette
            [yearMin sel; yearMax sel] (sel_states sel) (sel_sources sel) ;;
  respond refs.

(** A session: the selections of the user, answered one after the other. *)
Fixpoint serve (renewable color_palette : nat) (requests : list Selection)
         (h : heap) : list (result rendered) * heap :=
  match requests with
  | [] => ([], h)
  | sel :: rest =>
      let (answer, h') := on_selection renewable color_palette sel h in
      let (answers, h'') := serve renewable color_palette rest h' in
      (answer :: answers, h'')
  end.

(** The answer to a selection as a function of the rows of [renewable] and
    of the items of [color_palette]. *)
Definition answer_of (rows : list Row) (palette : list string) (sel : Selection)
  : result rendered :=
  figures <- update_graphs rows palette [yearMin sel; yearMax sel]
                           (sel_states sel) (sel_sources sel) ;;
  Ok ((fst figures, state_chart_layout),
      (snd figures, time_chart_layout, Some 3%Z)).

(** A stable sort of the counts, largest first: what [sort_values] computes
    whenever its kind keeps rows of equal count in their order. *)
Definition sort_values_stable (rows : list (string * nat)) : list (string * nat) :=
  Py.sorted (fun a b => snd b <? snd a) rows.

(** Another sort of the counts, largest first: ascending and stable, then
    reversed, so that rows of equal count come out in reverse order. *)
Definition sort_values_reversing (rows : list (string * nat)) : list (string * nat) :=
  rev (Py.sorted (fun a b => snd a <? snd b) rows).

(* ================================================================== *)
(** * The vocabulary of the specification *)
(* ================================================================== *)

(** A text with every character lowered. *)
Fixpoint lower (s : string) : string :=
  match s with
  | EmptyString => EmptyString
  | String c s' => String (Re.unicode_tolower c) (lower s')
  end.

(** [s] contains [kw] when letter case is ignored: some window of [s]
    reads as [kw] once both are lowered. *)
Definition contains_ignoring_case (s kw : string) : Prop :=
  exists pre suf : string, lower s = (pre ++ lower kw ++ suf)%string.

Definition exclusion_keywords : list string :=
  ["Consumption"; "Verification"; "Sold"]%string.

(** The row inclusion predicate of the Query Engine, in the words of the
    specification, and its decision procedure. *)
Definition row_included (sel : Selection) (r : Row) : Prop :=
  (yearMin sel <= Fiscal_Year r <= yearMax sel)%Z /\
  In (State r) (sel_states sel) /\
  exists s, Source r = Some s /\ In s (sel_sources sel).

Definition row_included_b (sel : Selection) (r : Row) : bool :=
  (yearMin sel <=? Fiscal_Year r)%Z && (Fiscal_Year r <=? yearMax sel)%Z &&
  existsb (String.eqb (State r)) (sel_states sel) &&
  match Source r with
  | Some s => existsb (String.eqb s) (sel_sources sel)
  | None => false
  end.

(** Under the order [lt], [a] may stand before [b]. *)
Definition may_precede {A : Type} (lt : A -> A -> bool) (a b : A) : Prop :=
  lt b a = false.

(** Is [r] a member of the group of key [(a, src)], where [f] reads the
    first key column? *)
Definition in_group {A : Type} (decA : forall x y : A, {x = y} + {x <> y})
           (f : Row -> A) (a : A) (src : string) (r : Row) : bool :=
  (if decA (f r) a then true else false) &&
  match Source r with
  | Some s => String.eqb s src
  | None => false
  end.

(** The sum of the counts of a table, and the count a table gives a key. *)
Definition total_count {K : Type} (table : list (K * nat)) : nat :=
  list_sum (map snd table).

Definition count_of {K : Type} (eq_dec : forall x y : K, {x = y} + {x <> y})
           (table : list (K * nat)) (k : K) : nat :=
  total_count (filter (fun row => if eq_dec (fst row) k then true else false) table).

(** The number of rows of the working dataset with a given [State]. *)
Definition state_count (renewable : list Row) (s : string) : nat :=
  count_occ string_dec (map State renewable) s.

(** What pandas promises of [sort_values('count', ascending=False)]: the
    same rows, counts never increasing. *)
Definition sorts_by_count_desc
           (sort_values : list (string * nat) -> list (string * nat)) : Prop :=
  forall rows,
    Permutation (sort_values rows) rows /\
    StronglySorted (fun a b => snd b <= snd a) (sort_values rows).

(** A sort is stable when rows of equal count keep their order. *)
Definition keeps_ties
           (sort_values : list (string * nat) -> list (string * nat)) : Prop :=
  forall rows n,
    filter (fun row => snd row =? n) (sort_values rows) =
    filter (fun row => snd row =? n) rows.

(** Ties in first-encountered order: the listed states of equal count
    stand in the order in which the dataset first mentions them. *)
Definition ties_first_encountered (renewable : list Row) (top : list string) : Prop :=
  forall n,
    filter (fun s => state_count renewable s =? n) top =
    filter (fun s => (state_count renewable s =? n) &&
                     (if in_dec string_dec s top then true else false))
           (Pd.unique string_dec (map State renewable)).

(** The mask of line 8 before it is inverted, row by row. *)
Definition excluded (r : Row) : bool :=
  match Source r with
  | Some s => Re.search exclusion_pattern true s
  | None => false
  end.

(** The text of a [Source] cell, empty when the cell is missing. *)
Definition source_text (r : Row) : string :=
  match Source r with
  | Some s => s
  | None => EmptyString
  end.

(** The default states as the specification words them: the length, the
    highest counts, and ties in first-encountered order. *)
Definition default_states_claim
           (sort_values : list (string * nat) -> list (string * nat))
           (dataset : list Row) : Prop :=
  let working := renewable dataset in
  let top := top_10_states sort_values working in
  length top = Nat.min 10 (length (Pd.unique string_dec (map State working))) /\
  (forall s t, In s top -> In t (map State working) -> ~ In t top ->
               state_count working t <= state_count working s) /\
  ties_first_encountered working top.

(** A strict total order, given by its test [a < b]. *)
Definition strict_total {A : Type} (lt : A -> A -> bool) : Prop :=
  (forall a, lt a a = false) /\
  (forall a b c, lt a b = true -> lt b c = true -> lt a c = true) /\
  (forall a b, lt a b = true \/ a = b \/ lt b a = true).

(** [sel'] asks for at least what [sel] asks for. *)
Definition widens (sel sel' : Selection) : Prop :=
  (yearMin sel' <= yearMin sel)%Z /\
  (yearMax sel <= yearMax sel')%Z /\
  incl (sel_states sel) (sel_states sel') /\
  incl (sel_sources sel) (sel_sources sel').

(** Two selections with the same year range that name the same states and
    the same sources, in whatever order and however often. *)
Definition same_choice (sel sel' : Selection) : Prop :=
  yearMin sel = yearMin sel' /\
  yearMax sel = yearMax sel' /\
  (forall s, In s (sel_states sel) <-> In s (sel_states sel')) /\
  (forall s, In s (sel_sources sel) <-> In s (sel_sources sel')).

(** Is the state of [r] one of [states]? *)
Definition state_among (states : list string) (r : Row) : bool :=
  if in_dec string_dec (State r) states then true else false.

(* ================================================================== *)
(** * Datasets used as examples *)
(* ================================================================== *)

(** The scenario of the specification. *)
Definition ds_scenario : list Row :=
  [ mkRow (Some "Solar Grant"%string) "CA" 2020;
    mkRow (Some "Wind Consumption Report"%string) "CA" 2020 ].

Definition sel_scenario : Selection :=
  {| yearMin := 2020; yearMax := 2020;
     sel_states := ["CA"%string]; sel_sources := ["Solar Grant"%string] |}.

(** Two datasets with the same two states, one record each, in opposite
    orders. *)
Definition ds_tx_ca : list Row :=
  [ mkRow (Some "Solar Grant"%string) "TX" 2020;
    mkRow (Some "Solar Grant"%string) "CA" 2020 ].

Definition ds_ca_tx : list Row :=
  [ mkRow (Some "Solar Grant"%string) "CA" 2020;
    mkRow (Some "Solar Grant"%string) "TX" 2020 ].

(** A dataset in which one record has no [Source] and another has one. *)
Definition ds_missing_source : list Row :=
  [ mkRow None "CA" 2020;
    mkRow (Some "Solar Grant"%string) "CA" 2020 ].

(** Eleven states: "WA" has three records, "OR" two, the others one. *)
Definition ds_eleven_states : list Row :=
  map (fun st => mkRow (Some "Solar Grant"%string) st 2020)
      ["WA"; "TX"; "OR"; "NY"; "WA"; "FL"; "CA"; "OR"; "AZ"; "WA"; "NV"; "UT"; "CO"; "NM"]%string.

(** The palette of the script (line 136). *)
Definition extended_palette : list string :=
  ["#DF7350"; "#173647"; "#007786"; "#3F5D6C"; "#C3BCB7";
   "#9ABBD9"; "#F2B880"; "#8B5E88"; "#D1B963"; "#E58B88"]%string.

(** The heap when the constructor has returned for the scenario and the
    palette of the script: the Working Dataset and the palette. *)
Definition heap_scenario : heap :=
  [DataFrame (renewable ds_scenario); PyList extended_palette].

(** A selection that includes no record of the scenario. *)
Definition sel_elsewhere : Selection :=
  {| yearMin := 2020; yearMax := 2020;
     sel_states := ["TX"%string]; sel_sources := ["Solar Grant"%string] |}.

(** A dataset in which every record names an excluded category. *)
Definition ds_all_excluded : list Row :=
  [ mkRow (Some "Wind Consumption Report"%string) "CA" 2020;
    mkRow (Some "REC sold"%string) "TX" 2021 ].

(* ================================================================== *)
(** * The definitions at small inputs *)
(* ================================================================== *)

Example str_of_year : Py.str 2020 = "2020"%string /\ Py.str 0 = "0"%string /\
                      Py.str (-7) = "-7"%string.
Proof. repeat split. Qed.

Example min_max_years :
  Py.min [2019; 2020; 2023]%Z = Ok 2019%Z /\ Py.max [2019; 2020; 2023]%Z = Ok 2023%Z /\
  Py.min [] = Raise ValueError.
Proof. repeat split. Qed.

Example sorted_cells :
  Py.sorted_r Py.lt_cell [Some "Wind"; Some "Solar"]%string = Ok [Some "Solar"; Some "Wind"]%string /\
  Py.sorted_r Py.lt_cell [None] = Ok [None] /\
  Py.sorted_r Py.lt_cell [Some "Wind"%string; None] = Raise TypeError.
Proof. repeat split. Qed.

Example search_examples :
  Re.search exclusion_pattern true "Wind Consumption Report" = true /\
  Re.search exclusion_pattern true "REC SOLD" = true /\
  Re.search exclusion_pattern true "Third-party verification" = true /\
  Re.search exclusion_pattern true "Solar Grant" = false /\
  Re.search exclusion_pattern false "REC sold" = false.
Proof. repeat split. Qed.

Example unique_first_appearance :
  Pd.unique string_dec ["TX"; "CA"; "TX"; "AZ"; "CA"]%string = ["TX"; "CA"; "AZ"]%string.
Proof. reflexivity. Qed.

Example renewable_scenario :
  renewable ds_scenario = [mkRow (Some "Solar Grant"%string) "CA" 2020].
Proof. reflexivity. Qed.

Example state_counts_eleven :
  state_counts ds_eleven_states =
  [("AZ", 1); ("CA", 1); ("CO", 1); ("FL", 1); ("NM", 1); ("NV", 1);
   ("NY", 1); ("OR", 2); ("TX", 1); ("UT", 1); ("WA", 3)]%string.
Proof. reflexivity. Qed.

Example top_10_eleven :
  top_10_states sort_values_stable ds_eleven_states =
  ["WA"; "OR"; "AZ"; "CA"; "CO"; "FL"; "NM"; "NV"; "NY"; "TX"]%string /\
  top_10_states sort_values_reversing ds_eleven_states =
  ["WA"; "OR"; "UT"; "TX"; "NY"; "NV"; "NM"; "FL"; "CO"; "CA"]%string.
Proof. split; reflexivity. Qed.

Example update_graphs_short_range :
  update_graphs ds_scenario [] [2020]%Z ["CA"%string] ["Solar Grant"%string]
  = Raise IndexError.
Proof. reflexivity. Qed.

Example one_request_on_the_heap :
  on_selection 0 1 sel_scenario heap_scenario =
  (Ok (({| data_frame := [("CA"%string, "Solar Grant"%string, 1)];
           color_discrete_sequence := ["#DF7350"%string];
           title := "Renewable Energy by State" |}, state_chart_layout),
       ({| data_frame := [(2020%Z, "Solar Grant"%string, 1)];
           color_discrete_sequence := ["#DF7350"%string];
           title := "Renewable Energy Over Time (2020-2020)" |},
        time_chart_layout, Some 3%Z)),
   heap_scenario ++
   [DataFrame (renewable ds_scenario);
    BarFigure {| data_frame := [("CA"%string, "Solar Grant"%string, 1)];
                 color_discrete_sequence := ["#DF7350"%string];
                 title := "Renewable Energy by State" |} state_chart_layout;
    LineFigure {| data_frame := [(2020%Z, "Solar Grant"%string, 1)];
                  color_discrete_sequence := ["#DF7350"%string];
                  title := "Renewable Energy Over Time (2020-2020)" |}
               time_chart_layout (Some 3%Z)]).
Proof. reflexivity. Qed.

Example dashboard_scenario :
  exists app,
    create_renewable_dashboard sort_values_stable ds_scenario [] = Ok app /\
    slider_value (year_slider app) = [2020; 2020]%Z /\
    dropdown_value (state_selector app) = ["CA"%string] /\
    dropdown_value (source_selector app) = [Some "Solar Grant"%string].
Proof. eexists. repeat split. Qed.

(* ================================================================== *)
(** * Facts about the built-ins *)
(* ================================================================== *)

Section MaskFacts.
Context {A : Type}.

Lemma getitem_mask_map (p : A -> bool) (df : list A) :
  Pd.getitem_mask df (map p df) = filter p df.
Proof.
  induction df as [|r df IH]; simpl; [reflexivity|].
  rewrite IH. reflexivity.
Qed.

Lemma mask_and_map (p q : A -> bool) (df : list A) :
  Pd.mask_and (map p df) (map q df) = map (fun r => p r && q r) df.
Proof.
  induction df as [|r df IH]; simpl; [reflexivity|].
  now rewrite IH.
Qed.

End MaskFacts.

Section UniqueFacts.
Context {A : Type} (eq_dec : forall x y : A, {x = y} + {x <> y}).

Lemma unique_In (l : list A) (x : A) : In x (Pd.unique eq_dec l) <-> In x l.
Proof.
  induction l as [|a l IH]; simpl; [tauto|].
  rewrite filter_In, IH.
  destruct (eq_dec a x) as [->|Hne]; split; intros H.
  - now left.
  - now left.
  - destruct H as [H|[H _]]; [now left | now right].
  - destruct H as [H|H]; [now left | right; split; [assumption|]].
    destruct (eq_dec a x); [contradiction | reflexivity].
Qed.

Lemma unique_NoDup (l : list A) : NoDup (Pd.unique eq_dec l).
Proof.
  induction l as [|a l IH]; simpl; constructor.
  - rewrite filter_In. intros [_ H].
    destruct (eq_dec a a); [discriminate | contradiction].
  - now apply NoDup_filter.
Qed.

Lemma unique_nil (l : list A) : Pd.unique eq_dec l = [] -> l = [].
Proof. destruct l; simpl; [reflexivity | discriminate]. Qed.

End UniqueFacts.

Section SortedFacts.
Context {A : Type} (lt : A -> A -> bool).

Hypothesis lt_asym : forall a b, lt a b = true -> lt b a = false.
Hypothesis le_trans :
  forall a b c, may_precede lt a b -> may_precede lt b c -> may_precede lt a c.

Lemma insert_perm (x : A) (l : list A) : Permutation (Py.insert lt x l) (x :: l).
Proof.
  induction l as [|y l IH]; simpl; [reflexivity|].
  destruct (lt y x); [|reflexivity].
  rewrite IH. apply perm_swap.
Qed.

Lemma sorted_perm (l : list A) : Permutation (Py.sorted lt l) l.
Proof.
  induction l as [|x l IH]; simpl; [reflexivity|].
  rewrite insert_perm. now constructor.
Qed.

Lemma insert_sorted (x : A) (l : list A) :
  StronglySorted (may_precede lt) l -> StronglySorted (may_precede lt) (Py.insert lt x l).
Proof.
  induction 1 as [|y l Hs IH Hall]; simpl.
  - constructor; constructor.
  - destruct (lt y x) eqn:Hyx.
    + constructor; [exact IH|].
      eapply Permutation_Forall; [symmetry; apply insert_perm|].
      constructor; [now apply lt_asym | exact Hall].
    + constructor; [now constructor|].
      constructor; [exact Hyx|].
      eapply Forall_impl; [|exact Hall].
      intros z Hz. now apply le_trans with y.
Qed.

Lemma sorted_sorted (l : list A) : StronglySorted (may_precede lt) (Py.sorted lt l).
Proof.
  induction l as [|x l IH]; simpl; [constructor | now apply insert_sorted].
Qed.

End SortedFacts.

(** ** The order of strings and of integers *)

Lemma string_compare_OT (a b : string) :
  String.compare a b = OrdersEx.String_as_OT.compare a b.
Proof. reflexivity. Qed.

Lemma string_ltb_lt (a b : string) :
  String.ltb a b = true <-> OrdersEx.String_as_OT.lt a b.
Proof.
  unfold String.ltb, OrdersEx.String_as_OT.lt. rewrite string_compare_OT.
  destruct (OrdersEx.String_as_OT.compare a b); split; congruence.
Qed.

Lemma string_ltb_irrefl (a : string) : String.ltb a a = false.
Proof.
  destruct (String.ltb a a) eqn:H; [|reflexivity].
  apply string_ltb_lt in H.
  now apply (StrictOrder_Irreflexive (R := OrdersEx.String_as_OT.lt)) in H.
Qed.

Lemma string_ltb_trans (a b c : string) :
  String.ltb a b = true -> String.ltb b c = true -> String.ltb a c = true.
Proof.
  rewrite !string_ltb_lt. apply (StrictOrder_Transitive (R := OrdersEx.String_as_OT.lt)).
Qed.

Lemma string_ltb_asym (a b : string) :
  String.ltb a b = true -> String.ltb b a = false.
Proof.
  intros Hab. destruct (String.ltb b a) eqn:Hba; [|reflexivity].
  rewrite <- (string_ltb_irrefl a). symmetry. now apply string_ltb_trans with b.
Qed.

Lemma string_ltb_total (a b : string) :
  String.ltb a b = true \/ a = b \/ String.ltb b a = true.
Proof.
  rewrite !string_ltb_lt.
  destruct (OrdersEx.String_as_OT.compare_spec a b) as [H|H|H]; auto.
Qed.

Lemma string_may_precede_trans (a b c : string) :
  may_precede String.ltb a b -> may_precede String.ltb b c ->
  may_precede String.ltb a c.
Proof.
  unfold may_precede. intros Hab Hbc.
  destruct (String.ltb c a) eqn:Hca; [|reflexivity].
  destruct (string_ltb_total a b) as [H|[->|H]]; [|congruence|congruence].
  destruct (string_ltb_total b c) as [H'|[->|H']]; [|congruence|congruence].
  rewrite <- (string_ltb_irrefl a). symmetry.
  eauto using string_ltb_trans.
Qed.

Lemma string_may_precede_strict (a b : string) :
  may_precede String.ltb a b -> a <> b -> String.ltb a b = true.
Proof.
  unfold may_precede. intros Hba Hne.
  destruct (string_ltb_total a b) as [H|[H|H]]; [assumption|contradiction|congruence].
Qed.

(** Distinct values sorted by [<] stand in strictly ascending order. *)
Lemma sorted_unique_strict {A : Type} (lt : A -> A -> bool) (l : list A) :
  (forall a b, may_precede lt a b -> a <> b -> lt a b = true) ->
  NoDup l -> StronglySorted (may_precede lt) l ->
  StronglySorted (fun a b => lt a b = true) l.
Proof.
  intros Hstrict Hnd Hs. induction Hs as [|a l Hs IH Hall]; constructor.
  - apply IH. now inversion Hnd.
  - inversion Hnd as [|? ? Hnotin _]; subst.
    rewrite Forall_forall in *. intros b Hb.
    apply Hstrict; [now apply Hall|]. intros ->. contradiction.
Qed.

(** ** Grouping *)

Section GroupByFacts.
Context {K : Type} (eq_dec : forall x y : K, {x = y} + {x <> y}).

Lemma list_sum_perm (l l' : list nat) : Permutation l l' -> list_sum l = list_sum l'.
Proof. induction 1; simpl; lia. Qed.

(** The occurrences of the members of a duplicate-free list that covers
    [keys] add up to the length of [keys]. *)
Lemma sum_count_occ (keys groups : list K) :
  NoDup groups -> incl keys groups ->
  list_sum (map (count_occ eq_dec keys) groups) = length keys.
Proof.
  intros Hnd. induction keys as [|k keys IH]; intros Hincl.
  - simpl. clear Hnd Hincl. induction groups; simpl; [reflexivity | assumption].
  - assert (Hk : In k groups) by (apply Hincl; now left).
    assert (Hrest : incl keys groups) by (intros x Hx; apply Hincl; now right).
    specialize (IH Hrest). simpl length. rewrite <- IH. clear IH Hincl Hrest.
    induction groups as [|g groups IHg]; [contradiction|].
    inversion Hnd as [|? ? Hnotin Hnd']; subst. simpl.
    destruct (eq_dec k g) as [->|Hne].
    + assert (Hsame : map (count_occ eq_dec (g :: keys)) groups =
                      map (count_occ eq_dec keys) groups).
      { apply map_ext_in. intros x Hx. simpl.
        destruct (eq_dec g x) as [->|]; [contradiction|reflexivity]. }
      simpl in Hsame. rewrite Hsame. lia.
    + destruct Hk as [->|Hk]; [contradiction|].
      specialize (IHg Hnd' Hk). simpl in IHg. lia.
Qed.

Lemma groupby_size_total (lt : K -> K -> bool) (keys : list (option K)) :
  total_count (Pd.groupby_size eq_dec lt keys) = length (Pd.dropna keys).
Proof.
  unfold total_count, Pd.groupby_size. rewrite map_map. simpl.
  rewrite (list_sum_perm
             (Permutation_map _ (sorted_perm lt (Pd.unique eq_dec (Pd.dropna keys))))).
  apply sum_count_occ.
  - apply unique_NoDup.
  - intros x Hx. now apply unique_In.
Qed.

Lemma count_of_groups (f : K -> nat) (groups : list K) (k : K) :
  NoDup groups ->
  count_of eq_dec (map (fun g => (g, f g)) groups) k =
  if in_dec eq_dec k groups then f k else 0.
Proof.
  unfold count_of, total_count.
  induction groups as [|g groups IH]; intros Hnd; simpl; [reflexivity|].
  inversion Hnd as [|? ? Hnotin Hnd']; subst. specialize (IH Hnd').
  destruct (eq_dec g k) as [->|Hne]; simpl.
  - rewrite IH. destruct (in_dec eq_dec k groups); [contradiction|lia].
  - rewrite IH. destruct (in_dec eq_dec k groups); reflexivity.
Qed.

(** A table gives every key the number of rows that carry it. *)
Lemma groupby_size_count (lt : K -> K -> bool) (keys : list (option K)) (k : K) :
  count_of eq_dec (Pd.groupby_size eq_dec lt keys) k =
  count_occ eq_dec (Pd.dropna keys) k.
Proof.
  unfold Pd.groupby_size. rewrite count_of_groups.
  - destruct (in_dec eq_dec k _) as [Hin|Hnotin]; [reflexivity|].
    symmetry. apply count_occ_not_In. intros Hk. apply Hnotin.
    apply (Permutation_in _ (Permutation_sym (sorted_perm lt _))).
    now apply unique_In.
  - apply (Permutation_NoDup (Permutation_sym (sorted_perm lt _))).
    apply unique_NoDup.
Qed.

Lemma groupby_size_nil (lt : K -> K -> bool) (keys : list (option K)) :
  Pd.dropna keys = [] -> Pd.groupby_size eq_dec lt keys = [].
Proof. unfold Pd.groupby_size. intros ->. reflexivity. Qed.

End GroupByFacts.

(** ** Searching a pattern of literals *)

Lemma char_match_lower (p c : ascii) :
  Re.char_match true p c = true <-> Re.unicode_tolower c = Re.unicode_tolower p.
Proof. unfold Re.char_match. apply Ascii.eqb_eq. Qed.

Lemma match_here_lower (lit text : string) :
  Re.match_here true lit text = true <->
  exists suf, lower text = (lower lit ++ suf)%string.
Proof.
  revert text. induction lit as [|p lit IH]; intros text.
  - simpl. split; [intros _; now exists (lower text) | reflexivity].
  - destruct text as [|c text]; cbn [Re.match_here lower String.append].
    + split; [discriminate | intros [suf H]; discriminate].
    + rewrite andb_true_iff, char_match_lower, IH. split.
      * intros [Hc [suf Hs]]. exists suf. now rewrite Hc, Hs.
      * intros [suf H]. injection H as Hc Hs. split; [assumption | now exists suf].
Qed.

Lemma match_at_lower (alts : list string) (text : string) :
  Re.match_at true alts text = true <->
  exists lit, In lit alts /\ exists suf, lower text = (lower lit ++ suf)%string.
Proof.
  unfold Re.match_at. rewrite existsb_exists.
  split; intros [lit [Hin H]]; exists lit; (split; [assumption|]);
    now apply match_here_lower.
Qed.

Lemma search_from_contains (alts : list string) (text : string) :
  Re.search_from true alts text = true <->
  exists lit, In lit alts /\ contains_ignoring_case text lit.
Proof.
  unfold contains_ignoring_case.
  induction text as [|c text IH]; simpl.
  - rewrite match_at_lower. split.
    + intros [lit [Hin [suf H]]]. exists lit. split; [assumption|].
      now exists EmptyString, suf.
    + intros [lit [Hin [pre [suf H]]]]. exists lit. split; [assumption|].
      destruct pre; [now exists suf | discriminate].
  - rewrite orb_true_iff, match_at_lower, IH. split.
    + intros [[lit [Hin [suf H]]] | [lit [Hin [pre [suf H]]]]]; exists lit;
        (split; [assumption|]).
      * now exists EmptyString, suf.
      * exists (String (Re.unicode_tolower c) pre), suf. simpl. now rewrite H.
    + intros [lit [Hin [[|a pre] [suf H]]]].
      * left. exists lit. split; [assumption | now exists suf].
      * right. exists lit. split; [assumption|]. exists pre, suf.
        simpl in H. now injection H.
Qed.

Lemma exclusion_pattern_branches :
  Re.branches exclusion_pattern = exclusion_keywords.
Proof. reflexivity. Qed.

(** ** The Renewable Filter *)

Lemma renewable_filter (dataset : list Row) :
  renewable dataset = filter (fun r => negb (excluded r)) dataset.
Proof.
  unfold renewable, Pd.invert, Pd.str_contains.
  rewrite !map_map. apply getitem_mask_map.
Qed.

Lemma renewable_In (dataset : list Row) (r : Row) :
  In r (renewable dataset) <-> In r dataset /\ excluded r = false.
Proof.
  rewrite renewable_filter, filter_In, negb_true_iff. reflexivity.
Qed.

(** C1: every record the Renewable Filter retains has a [Source] that
    contains none of "Consumption", "Verification" and "Sold", letter
    case ignored. *)
Theorem renewable_excludes_keywords :
  forall (dataset : list Row) (r : Row) (s kw : string),
    In r (renewable dataset) ->
    Source r = Some s ->
    In kw exclusion_keywords ->
    ~ contains_ignoring_case s kw.
Proof.
  intros dataset r s kw Hr Hs Hkw Hc.
  apply renewable_In in Hr. destruct Hr as [_ Hex].
  unfold excluded in Hex. rewrite Hs in Hex.
  assert (Hfound : Re.search exclusion_pattern true s = true).
  { unfold Re.search. rewrite exclusion_pattern_branches.
    apply search_from_contains. now exists kw. }
  congruence.
Qed.

(** The filter keeps exactly the rows of the dataset whose [Source] is
    missing or contains no keyword. *)
Lemma renewable_complete (dataset : list Row) (r : Row) :
  In r dataset ->
  (forall s kw, Source r = Some s -> In kw exclusion_keywords ->
                ~ contains_ignoring_case s kw) ->
  In r (renewable dataset).
Proof.
  intros Hin Hfree. apply renewable_In. split; [assumption|].
  unfold excluded. destruct (Source r) as [s|] eqn:Hs; [|reflexivity].
  destruct (Re.search exclusion_pattern true s) eqn:Hfound; [|reflexivity].
  unfold Re.search in Hfound. rewrite exclusion_pattern_branches in Hfound.
  apply search_from_contains in Hfound. destruct Hfound as [kw [Hkw Hc]].
  exfalso. now apply (Hfree s kw).
Qed.

(** C6: a record whose [Source] is missing does not match the exclusion
    pattern ([str.contains] answers [False] for it) and is retained in the
    Working Dataset. *)
Theorem renewable_keeps_missing_source :
  forall (dataset : list Row) (r : Row),
    In r dataset ->
    Source r = None ->
    Pd.str_contains [Source r] exclusion_pattern false false = [false] /\
    In r (renewable dataset).
Proof.
  intros dataset r Hin Hs. split.
  - now rewrite Hs.
  - apply renewable_In. split; [assumption|]. unfold excluded. now rewrite Hs.
Qed.

(** ** The Query Engine *)

Lemma in_dec_existsb (x : string) (l : list string) :
  (if in_dec string_dec x l then true else false) = existsb (String.eqb x) l.
Proof.
  destruct (in_dec string_dec x l) as [Hin|Hnotin]; symmetry.
  - apply existsb_exists. exists x. split; [assumption | apply String.eqb_refl].
  - destruct (existsb (String.eqb x) l) eqn:H; [|reflexivity].
    apply existsb_exists in H. destruct H as [y [Hy Heq]].
    apply String.eqb_eq in Heq. subst. contradiction.
Qed.

Lemma filtered_data_filter (rows : list Row) (sel : Selection) :
  filtered_data rows (yearMin sel) (yearMax sel) (sel_states sel) (sel_sources sel) =
  filter (row_included_b sel) rows.
Proof.
  unfold filtered_data, Pd.isin, Pd.isin_cells.
  rewrite !map_map, !mask_and_map, getitem_mask_map.
  apply filter_ext. intros r. unfold row_included_b.
  rewrite in_dec_existsb. f_equal.
  destruct (Source r); [apply in_dec_existsb | reflexivity].
Qed.

Lemma row_included_b_spec (sel : Selection) (r : Row) :
  row_included_b sel r = true <-> row_included sel r.
Proof.
  unfold row_included_b, row_included.
  rewrite !andb_true_iff, !Z.leb_le, existsb_exists.
  split.
  - intros [[[Hlo Hhi] [st [Hst Heq]]] Hsrc].
    apply String.eqb_eq in Heq. subst st.
    split; [lia|]. split; [assumption|].
    destruct (Source r) as [s|]; [|discriminate].
    apply existsb_exists in Hsrc. destruct Hsrc as [s' [Hs' Heq']].
    apply String.eqb_eq in Heq'. subst s'. now exists s.
  - intros [[Hlo Hhi] [Hst [s [Hs Hin]]]].
    repeat split; try assumption.
    + exists (State r). split; [assumption | apply String.eqb_refl].
    + rewrite Hs. apply existsb_exists. exists s.
      split; [assumption | apply String.eqb_refl].
Qed.

Lemma row_included_has_source (sel : Selection) (r : Row) :
  row_included_b sel r = true -> Source r <> None.
Proof.
  unfold row_included_b. rewrite !andb_true_iff.
  intros [_ H] Hs. rewrite Hs in H. discriminate.
Qed.

Section TwoKeyGrouping.
Context {A : Type} (decA : forall x y : A, {x = y} + {x <> y}) (f : Row -> A).


Lemma dropna_keys_length (rows : list Row) :
  (forall r, In r rows -> Source r <> None) ->
  length (Pd.dropna (map (two_key f) rows)) = length rows.
Proof.
  induction rows as [|r rows IH]; intros Hsrc; simpl; [reflexivity|].
  unfold two_key at 1. destruct (Source r) eqn:Hs; simpl.
  - f_equal. apply IH. intros r' Hr'. apply Hsrc. now right.
  - exfalso. apply (Hsrc r); [now left | assumption].
Qed.

Lemma dropna_keys_count (rows : list Row) (a : A) (src : string) :
  count_occ (pair_eq_dec decA string_dec) (Pd.dropna (map (two_key f) rows)) (a, src) =
  length (filter (in_group decA f a src) rows).
Proof.
  induction rows as [|r rows IH]; [reflexivity|].
  cbn [map filter]. unfold two_key at 1, in_group at 1.
  destruct (Source r) as [s|]; cbn [option_map Pd.dropna count_occ].
  - destruct (pair_eq_dec decA string_dec (f r, s) (a, src)) as [Heq|Hne].
    + injection Heq as Ha Hs. subst src. rewrite String.eqb_refl.
      destruct (decA (f r) a); [|contradiction].
      cbn [andb length]. now rewrite IH.
    + destruct (decA (f r) a) as [Ha|Ha]; cbn [andb]; [|assumption].
      destruct (String.eqb_spec s src) as [Hs|Hs]; [|assumption].
      subst. contradiction.
  - rewrite andb_false_r. assumption.
Qed.

End TwoKeyGrouping.

Lemma filter_nil_all_false {A : Type} (p : A -> bool) (l : list A) :
  (forall x, In x l -> p x = false) -> filter p l = [].
Proof.
  induction l as [|x l IH]; intros H; simpl; [reflexivity|].
  rewrite (H x (or_introl eq_refl)). apply IH. intros y Hy. apply H. now right.
Qed.

Lemma table_a_total (sel : Selection) (rows : list Row) :
  total_count (table_a (filter (row_included_b sel) rows)) =
  length (filter (row_included_b sel) rows).
Proof.
  unfold table_a. rewrite groupby_size_total.
  apply (dropna_keys_length State). intros r Hr.
  apply filter_In in Hr. now apply row_included_has_source with sel.
Qed.

Lemma table_b_total (sel : Selection) (rows : list Row) :
  total_count (table_b (filter (row_included_b sel) rows)) =
  length (filter (row_included_b sel) rows).
Proof.
  unfold table_b. rewrite groupby_size_total.
  apply (dropna_keys_length Fiscal_Year). intros r Hr.
  apply filter_In in Hr. now apply row_included_has_source with sel.
Qed.

Lemma px_figure_coloured {X : Type} (frame : list (X * string * nat))
      (c : string) (cs : list string) (text : string) :
  px_figure frame (c :: cs) text =
  Ok {| data_frame := frame; color_discrete_sequence := c :: cs; title := text |}.
Proof. now destruct frame. Qed.

Lemma px_figure_inv {X : Type} (frame : list (X * string * nat))
      (colours : list string) (text : string) (f : Figure X) :
  px_figure frame colours text = Ok f ->
  f = {| data_frame := frame; color_discrete_sequence := colours; title := text |}.
Proof.
  unfold px_figure. destruct frame, colours; intros H; try discriminate;
    now injection H as <-.
Qed.

Lemma included_selects_a_source (sel : Selection) (r : Row) :
  row_included_b sel r = true -> sel_sources sel <> [].
Proof.
  intros H Hnil. apply row_included_b_spec in H.
  destruct H as [_ [_ [s [_ Hin]]]]. rewrite Hnil in Hin. contradiction.
Qed.

(** The callback on a selection returns whenever the palette has a colour
    or no row is included. *)
Lemma update_graphs_selection (rows : list Row) (palette : list string) (sel : Selection) :
  palette <> [] \/ filter (row_included_b sel) rows = [] ->
  update_graphs rows palette [yearMin sel; yearMax sel] (sel_states sel) (sel_sources sel) =
  Ok ({| data_frame := table_a (filter (row_included_b sel) rows);
         color_discrete_sequence := Py.slice_to palette (length (sel_sources sel));
         title := "Renewable Energy by State" |},
      {| data_frame := table_b (filter (row_included_b sel) rows);
         color_discrete_sequence := Py.slice_to palette (length (sel_sources sel));
         title := ("Renewable Energy Over Time (" ++ Py.str (yearMin sel) ++ "-"
                   ++ Py.str (yearMax sel) ++ ")")%string |}).
Proof.
  intros Hcond. unfold update_graphs. cbn [Py.getitem nth_error Py.bind].
  rewrite filtered_data_filter.
  destruct (filter (row_included_b sel) rows) as [|r included] eqn:Hrows.
  - reflexivity.
  - destruct Hcond as [Hpal|Hnil]; [|discriminate].
    assert (Hr : row_included_b sel r = true).
    { assert (Hin : In r (filter (row_included_b sel) rows))
        by (rewrite Hrows; now left).
      now apply filter_In in Hin. }
    apply included_selects_a_source in Hr.
    destruct palette as [|c cs]; [contradiction|].
    destruct (sel_sources sel) as [|s ss]; [contradiction|].
    cbn [length Py.slice_to firstn]. now rewrite !px_figure_coloured.
Qed.

(** Whatever the palette, figures that the callback returns hold the two
    tables of the included rows. *)
Lemma update_graphs_inv (rows : list Row) (palette : list string) (sel : Selection)
      (state_chart : Figure string) (time_chart : Figure Z) :
  update_graphs rows palette [yearMin sel; yearMax sel] (sel_states sel) (sel_sources sel)
  = Ok (state_chart, time_chart) ->
  data_frame state_chart =
    table_a (filtered_data rows (yearMin sel) (yearMax sel)
                           (sel_states sel) (sel_sources sel)) /\
  data_frame time_chart =
    table_b (filtered_data rows (yearMin sel) (yearMax sel)
                           (sel_states sel) (sel_sources sel)).
Proof.
  unfold update_graphs. cbn [Py.getitem nth_error Py.bind].
  destruct (px_figure (table_a _) _ _) as [a|e] eqn:Ha; cbn [Py.bind]; [|discriminate].
  destruct (px_figure (table_b _) _ _) as [b|e] eqn:Hb; cbn [Py.bind]; [|discriminate].
  intros H. injection H as <- <-.
  apply px_figure_inv in Ha, Hb. subst a b. split; reflexivity.
Qed.

(** With an empty palette and an included row the callback raises in
    [px.bar]. *)
Lemma update_graphs_no_colour (rows : list Row) (sel : Selection) :
  filter (row_included_b sel) rows <> [] ->
  update_graphs rows [] [yearMin sel; yearMax sel] (sel_states sel) (sel_sources sel)
  = Raise ZeroDivisionError.
Proof.
  intros Hrows. unfold update_graphs. cbn [Py.getitem nth_error Py.bind].
  rewrite filtered_data_filter.
  pose proof (table_a_total sel rows) as Htotal.
  destruct (table_a (filter (row_included_b sel) rows)) as [|row table].
  - exfalso. apply Hrows. apply length_zero_iff_nil. now rewrite <- Htotal.
  - unfold Py.slice_to. rewrite firstn_nil. reflexivity.
Qed.


Lemma filter_filter_length {A : Type} (p q : A -> bool) (l : list A) :
  length (filter q (filter p l)) = length (filter (fun x => p x && q x) l).
Proof.
  induction l as [|x l IH]; simpl; [reflexivity|].
  destruct (p x); simpl; [|assumption].
  destruct (q x); simpl; now rewrite IH.
Qed.

Lemma filter_In_length {A : Type} (p : A -> bool) (l : list A) (x : A) :
  In x (filter p l) -> 1 <= length (filter p l).
Proof. destruct (filter p l); [contradiction | simpl; lia]. Qed.

Lemma table_a_count (sel : Selection) (rows : list Row) (st src : string) :
  count_of (pair_eq_dec string_dec string_dec)
           (table_a (filter (row_included_b sel) rows)) (st, src) =
  length (filter (fun r => row_included_b sel r && in_group string_dec State st src r) rows).
Proof.
  unfold table_a. rewrite groupby_size_count.
  rewrite (dropna_keys_count string_dec State). apply filter_filter_length.
Qed.

Lemma table_b_count (sel : Selection) (rows : list Row) (y : Z) (src : string) :
  count_of (pair_eq_dec Z.eq_dec string_dec)
           (table_b (filter (row_included_b sel) rows)) (y, src) =
  length (filter (fun r => row_included_b sel r && in_group Z.eq_dec Fiscal_Year y src r) rows).
Proof.
  unfold table_b. rewrite groupby_size_count.
  rewrite (dropna_keys_count Z.eq_dec Fiscal_Year). apply filter_filter_length.
Qed.

Lemma filtered_data_In (rows : list Row) (sel : Selection) (r : Row) :
  In r (filtered_data rows (yearMin sel) (yearMax sel) (sel_states sel) (sel_sources sel))
  <-> In r rows /\ row_included sel r.
Proof. now rewrite filtered_data_filter, filter_In, row_included_b_spec. Qed.


Lemma empty_selection_no_row (sel : Selection) (r : Row) :
  sel_states sel = [] \/ sel_sources sel = [] -> row_included_b sel r = false.
Proof.
  unfold row_included_b. intros [H|H]; rewrite H; simpl.
  - now rewrite andb_false_r.
  - destruct (Source r); apply andb_false_r.
Qed.

Lemma reversed_range_no_row (sel : Selection) (r : Row) :
  (yearMin sel > yearMax sel)%Z -> row_included_b sel r = false.
Proof.
  intros H. unfold row_included_b.
  destruct (Z.leb_spec (yearMin sel) (Fiscal_Year r)); simpl; [|reflexivity].
  destruct (Z.leb_spec (Fiscal_Year r) (yearMax sel)); simpl; [lia | reflexivity].
Qed.

Lemma update_graphs_empty (rows : list Row) (palette : list string) (sel : Selection) :
  (forall r, row_included_b sel r = false) ->
  exists state_chart time_chart,
    update_graphs rows palette [yearMin sel; yearMax sel]
                  (sel_states sel) (sel_sources sel)
    = Ok (state_chart, time_chart) /\
    data_frame state_chart = [] /\ data_frame time_chart = [].
Proof.
  intros Hnone.
  assert (Hnil : filter (row_included_b sel) rows = [])
    by (apply filter_nil_all_false; intros; apply Hnone).
  eexists. eexists.
  split; [apply update_graphs_selection; now right|]. cbn [data_frame].
  rewrite Hnil. split; reflexivity.
Qed.

(** C5: when no state or no source is selected the Query Engine returns
    an empty Table A and an empty Table B, whatever the rest of the
    selection, and raises nothing. *)
Theorem empty_selection_empty_tables :
  forall (dataset : list Row) (palette : list string) (sel : Selection),
    sel_states sel = [] \/ sel_sources sel = [] ->
    exists state_chart time_chart,
      update_graphs (renewable dataset) palette [yearMin sel; yearMax sel]
                    (sel_states sel) (sel_sources sel)
      = Ok (state_chart, time_chart) /\
      data_frame state_chart = [] /\ data_frame time_chart = [].
Proof.
  intros dataset palette sel Hempty. apply update_graphs_empty.
  intros r. now apply empty_selection_no_row.
Qed.

(** C8: when [yearMin > yearMax] the Query Engine returns two empty
    tables and raises nothing. *)
Theorem reversed_range_empty_tables :
  forall (dataset : list Row) (palette : list string) (sel : Selection),
    (yearMin sel > yearMax sel)%Z ->
    exists state_chart time_chart,
      update_graphs (renewable dataset) palette [yearMin sel; yearMax sel]
                    (sel_states sel) (sel_sources sel)
      = Ok (state_chart, time_chart) /\
      data_frame state_chart = [] /\ data_frame time_chart = [].
Proof.
  intros dataset palette sel Hrev. apply update_graphs_empty.
  intros r. now apply reversed_range_no_row.
Qed.

(** ** Sessions *)

Lemma nth_error_snoc (h : heap) (o : object) :
  nth_error (h ++ [o]) (length h) = Some o.
Proof. rewrite nth_error_app2 by lia. now rewrite Nat.sub_diag. Qed.

Lemma nth_error_old (h created : heap) (r : nat) (o : object) :
  nth_error h r = Some o -> nth_error (h ++ created) r = Some o.
Proof.
  intros H. rewrite nth_error_app1; [assumption|].
  apply nth_error_Some. congruence.
Qed.

Lemma store_snoc (h : heap) (o o' : object) :
  store (h ++ [o]) (length h) o' = h ++ [o'].
Proof. induction h as [|x h IH]; simpl; [reflexivity | now rewrite IH]. Qed.

(** One request reads [renewable] and [color_palette], writes only into
    objects it has made itself, and answers as [answer_of] says. *)
Lemma on_selection_spec (renewable color_palette : nat) (rows : list Row)
      (palette : list string) (sel : Selection) (h : heap) :
  nth_error h renewable = Some (DataFrame rows) ->
  nth_error h color_palette = Some (PyList palette) ->
  exists created,
    on_selection renewable color_palette sel h =
    (answer_of rows palette sel, h ++ created).
Proof.
  intros Hrows Hpal.
  unfold on_selection, answer_of, update_graphs_run, update_graphs.
  unfold bind_run, lift, frame_rows, list_items, new, ret.
  cbn [Py.getitem nth_error Py.bind].
  rewrite Hrows, nth_error_snoc, (@nth_error_old _ _ _ _ Hpal).
  set (included := filtered_data rows (yearMin sel) (yearMax sel)
                                 (sel_states sel) (sel_sources sel)).
  set (h1 := h ++ [DataFrame included]).
  destruct (px_figure (table_a included) _ _) as [bar|e]; cbn [Py.bind];
    [|now exists [DataFrame included]].
  unfold update_layout. rewrite nth_error_snoc, store_snoc.
  set (h2 := h1 ++ [BarFigure bar (state_chart_layout ++ [])]).
  assert (Hframe : nth_error h2 (length h) = Some (DataFrame included))
    by (apply nth_error_old, nth_error_snoc).
  assert (Hpal2 : nth_error h2 color_palette = Some (PyList palette))
    by (now apply nth_error_old, nth_error_old).
  rewrite Hframe, Hpal2.
  destruct (px_figure (table_b included) _ _) as [line|e]; cbn [Py.bind].
  - rewrite nth_error_snoc, store_snoc.
    unfold update_traces_line_width. rewrite nth_error_snoc, store_snoc.
    unfold respond. cbn [fst snd].
    assert (Hbar : forall created,
               nth_error (h2 ++ created) (length h1) =
               Some (BarFigure bar (state_chart_layout ++ [])))
      by (intros created; apply nth_error_old, nth_error_snoc).
    rewrite Hbar, nth_error_snoc, !app_nil_r.
    exists [DataFrame included; BarFigure bar state_chart_layout;
            LineFigure line time_chart_layout (Some 3%Z)].
    unfold h2, h1. rewrite <- !app_assoc, !app_nil_r. reflexivity.
  - exists [DataFrame included; BarFigure bar (state_chart_layout ++ [])].
    unfold h2, h1. now rewrite <- !app_assoc.
Qed.

Lemma serve_spec (renewable color_palette : nat) (rows : list Row)
      (palette : list string) (requests : list Selection) (h : heap) :
  nth_error h renewable = Some (DataFrame rows) ->
  nth_error h color_palette = Some (PyList palette) ->
  exists created,
    serve renewable color_palette requests h =
    (map (answer_of rows palette) requests, h ++ created).
Proof.
  revert h. induction requests as [|sel rest IH]; intros h Hrows Hpal.
  - exists []. simpl. now rewrite app_nil_r.
  - cbn [serve map].
    destruct (@on_selection_spec _ _ _ _ sel _ Hrows Hpal) as [c1 ->].
    destruct (IH (h ++ c1) (@nth_error_old _ c1 _ _ Hrows) (@nth_error_old _ c1 _ _ Hpal)) as [c2 ->].
    exists (c1 ++ c2). now rewrite app_assoc.
Qed.


(** ** The default states *)

Lemma StronglySorted_weaken {A : Type} (R R' : A -> A -> Prop) (l : list A) :
  (forall a b, In a l -> In b l -> R a b -> R' a b) ->
  StronglySorted R l -> StronglySorted R' l.
Proof.
  intros Himp Hs. induction Hs as [|a l Hs IH Hall]; constructor.
  - apply IH. intros x y Hx Hy. apply Himp; now right.
  - rewrite Forall_forall in *. intros b Hb.
    apply Himp; [now left | now right | now apply Hall].
Qed.

Lemma StronglySorted_filter {A : Type} (R : A -> A -> Prop) (p : A -> bool) (l : list A) :
  StronglySorted R l -> StronglySorted R (filter p l).
Proof.
  induction 1 as [|a l Hs IH Hall]; simpl; [constructor|].
  destruct (p a); [|assumption].
  constructor; [assumption|].
  rewrite Forall_forall in *. intros b Hb. apply filter_In in Hb. now apply Hall.
Qed.

Lemma StronglySorted_firstn {A : Type} (R : A -> A -> Prop) (n : nat) (l : list A) :
  StronglySorted R l -> StronglySorted R (firstn n l).
Proof.
  intros Hs. revert n. induction Hs as [|a l Hs IH Hall]; intros [|n]; simpl;
    try constructor.
  - apply IH.
  - rewrite Forall_forall in *. intros b Hb. apply Hall.
    rewrite <- (firstn_skipn n l). apply in_or_app. now left.
Qed.

Lemma StronglySorted_map {A B : Type} (R : B -> B -> Prop) (f : A -> B) (l : list A) :
  StronglySorted (fun a b => R (f a) (f b)) l -> StronglySorted R (map f l).
Proof.
  induction 1 as [|a l Hs IH Hall]; simpl; constructor; [assumption|].
  rewrite Forall_forall in *. intros b Hb.
  apply in_map_iff in Hb. destruct Hb as [x [<- Hx]]. now apply Hall.
Qed.

Lemma StronglySorted_app_cross {A : Type} (R : A -> A -> Prop) (l1 l2 : list A) :
  StronglySorted R (l1 ++ l2) ->
  forall a b, In a l1 -> In b l2 -> R a b.
Proof.
  induction l1 as [|x l1 IH]; simpl; intros Hs a b Ha Hb; [contradiction|].
  inversion Hs as [|? ? Hs' Hall]; subst.
  destruct Ha as [->|Ha].
  - rewrite Forall_forall in Hall. apply Hall. apply in_or_app. now right.
  - now apply IH.
Qed.

Lemma In_firstn {A : Type} (n : nat) (l : list A) (x : A) :
  In x (firstn n l) -> In x l.
Proof.
  intros H. rewrite <- (firstn_skipn n l). apply in_or_app. now left.
Qed.

Lemma NoDup_firstn {A : Type} (n : nat) (l : list A) :
  NoDup l -> NoDup (firstn n l).
Proof.
  intros H. rewrite <- (firstn_skipn n l) in H. now apply NoDup_app_remove_r in H.
Qed.

(** The rows of a prefix that pass a test form a prefix of the rows of
    the whole list that pass it. *)
Lemma filter_firstn_prefix {A : Type} (p : A -> bool) (n : nat) (l : list A) :
  exists m, filter p (firstn n l) = firstn m (filter p l).
Proof.
  revert n. induction l as [|x l IH]; intros [|n]; simpl.
  - now exists 0.
  - now exists 0.
  - now exists 0.
  - destruct (IH n) as [m Hm]. destruct (p x).
    + exists (S m). simpl. now rewrite Hm.
    + now exists m.
Qed.

Lemma dropna_map_Some {A K : Type} (f : A -> K) (l : list A) :
  Pd.dropna (map (fun x => Some (f x)) l) = map f l.
Proof. induction l as [|x l IH]; simpl; [reflexivity | now rewrite IH]. Qed.

Lemma all_states_perm (rows : list Row) :
  Permutation (all_states rows) (Pd.unique string_dec (map State rows)).
Proof. apply sorted_perm. Qed.

Lemma all_states_ascending (rows : list Row) :
  StronglySorted (fun a b => String.ltb a b = true) (all_states rows).
Proof.
  apply sorted_unique_strict.
  - apply string_may_precede_strict.
  - apply (Permutation_NoDup (Permutation_sym (all_states_perm rows))).
    apply unique_NoDup.
  - apply sorted_sorted; [apply string_ltb_asym | apply string_may_precede_trans].
Qed.

(** The grouping of line 18 lists the states in ascending order, each with
    the number of its rows. *)
Lemma state_counts_rows (rows : list Row) :
  state_counts rows = map (fun s => (s, state_count rows s)) (all_states rows).
Proof.
  unfold state_counts, Pd.groupby_size, all_states, state_count.
  now rewrite dropna_map_Some.
Qed.

Section DefaultStates.
Variable sort_values : list (string * nat) -> list (string * nat).
Hypothesis sort_values_ok : sorts_by_count_desc sort_values.
Variable rows : list Row.

Lemma ranked_perm :
  Permutation (state_counts_sorted sort_values rows) (state_counts rows).
Proof. apply sort_values_ok. Qed.

Lemma ranked_sorted :
  StronglySorted (fun a b => snd b <= snd a) (state_counts_sorted sort_values rows).
Proof. apply sort_values_ok. Qed.

Lemma ranked_row (row : string * nat) :
  In row (state_counts_sorted sort_values rows) ->
  snd row = state_count rows (fst row).
Proof.
  intros Hin. apply (Permutation_in _ ranked_perm) in Hin.
  rewrite state_counts_rows in Hin. apply in_map_iff in Hin.
  destruct Hin as [s [<- _]]. reflexivity.
Qed.

Lemma ranked_states_perm :
  Permutation (map fst (state_counts_sorted sort_values rows))
              (Pd.unique string_dec (map State rows)).
Proof.
  rewrite ranked_perm, state_counts_rows, map_map.
  simpl. rewrite map_id. apply all_states_perm.
Qed.

Lemma top_10_states_firstn :
  top_10_states sort_values rows =
  firstn 10 (map fst (state_counts_sorted sort_values rows)).
Proof. unfold top_10_states, Pd.head. now rewrite firstn_map. Qed.

Lemma top_10_states_length :
  length (top_10_states sort_values rows) =
  Nat.min 10 (length (Pd.unique string_dec (map State rows))).
Proof.
  rewrite top_10_states_firstn, length_firstn.
  now rewrite (Permutation_length ranked_states_perm).
Qed.

Lemma top_10_states_NoDup : NoDup (top_10_states sort_values rows).
Proof.
  rewrite top_10_states_firstn. apply NoDup_firstn.
  apply (Permutation_NoDup (Permutation_sym ranked_states_perm)).
  apply unique_NoDup.
Qed.

Lemma top_10_states_known (s : string) :
  In s (top_10_states sort_values rows) -> In s (map State rows).
Proof.
  rewrite top_10_states_firstn. intros H. apply In_firstn in H.
  apply (Permutation_in _ ranked_states_perm) in H. now apply unique_In in H.
Qed.

Lemma top_10_states_dominate (s t : string) :
  In s (top_10_states sort_values rows) ->
  In t (map State rows) ->
  ~ In t (top_10_states sort_values rows) ->
  state_count rows t <= state_count rows s.
Proof.
  unfold top_10_states, Pd.head.
  pose proof ranked_sorted as Hsorted.
  pose proof ranked_row as Hrow.
  pose proof ranked_states_perm as Hperm.
  set (ranked := state_counts_sorted sort_values rows) in *.
  intros Hs Ht Hnt.
  apply in_map_iff in Hs. destruct Hs as [rs [<- Hrs]].
  assert (Hrt : In t (map fst ranked)).
  { apply (Permutation_in _ (Permutation_sym Hperm)). now apply unique_In. }
  apply in_map_iff in Hrt. destruct Hrt as [rt [<- Hrt]].
  assert (Hlate : In rt (skipn 10 ranked)).
  { rewrite <- (firstn_skipn 10 ranked) in Hrt.
    apply in_app_or in Hrt. destruct Hrt as [Hrt|Hrt]; [|assumption].
    exfalso. apply Hnt. now apply in_map. }
  rewrite <- (Hrow rs) by now apply In_firstn in Hrs.
  rewrite <- (Hrow rt)
    by (rewrite <- (firstn_skipn 10 ranked); apply in_or_app; now right).
  rewrite <- (firstn_skipn 10 ranked) in Hsorted.
  exact (@StronglySorted_app_cross _ _ _ _ Hsorted rs rt Hrs Hlate).
Qed.

Lemma top_10_states_descending :
  StronglySorted (fun s t => state_count rows t <= state_count rows s)
                 (top_10_states sort_values rows).
Proof.
  unfold top_10_states, Pd.head. apply StronglySorted_map.
  apply StronglySorted_firstn.
  apply StronglySorted_weaken with (R := fun a b => snd b <= snd a).
  - intros a b Ha Hb Hle. now rewrite <- (ranked_row a Ha), <- (ranked_row b Hb).
  - apply ranked_sorted.
Qed.

Lemma top_10_states_ties_ascending (n : nat) :
  keeps_ties sort_values ->
  StronglySorted (fun s t => String.ltb s t = true)
                 (filter (fun s => state_count rows s =? n)
                         (top_10_states sort_values rows)).
Proof.
  intros Hstable. unfold top_10_states, Pd.head.
  assert (Hclass : forall l,
             (forall row, In row l -> snd row = state_count rows (fst row)) ->
             filter (fun s => state_count rows s =? n) (map fst l) =
             map fst (filter (fun row : string * nat => snd row =? n) l)).
  { induction l as [|row l IH]; intros Hrows; simpl; [reflexivity|].
    rewrite (Hrows row (or_introl eq_refl)).
    destruct (state_count rows (fst row) =? n); simpl;
      rewrite IH by (intros r Hr; apply Hrows; now right); reflexivity. }
  rewrite Hclass by (intros row Hrow; apply ranked_row; now apply In_firstn in Hrow).
  destruct (filter_firstn_prefix (fun row : string * nat => snd row =? n) 10
                                 (state_counts_sorted sort_values rows)) as [m ->].
  unfold state_counts_sorted. rewrite Hstable, state_counts_rows, <- firstn_map.
  apply StronglySorted_firstn.
  rewrite <- Hclass
    by (intros row Hrow; apply in_map_iff in Hrow; now destruct Hrow as [s [<- _]]).
  rewrite map_map. simpl. rewrite map_id.
  apply StronglySorted_filter, all_states_ascending.
Qed.

End DefaultStates.

(** The stable sort meets what pandas promises, and keeps ties. *)
Lemma sort_values_stable_ok : sorts_by_count_desc sort_values_stable.
Proof.
  intros rows. unfold sort_values_stable. split; [apply sorted_perm|].
  apply StronglySorted_weaken
    with (R := may_precede (fun a b : string * nat => snd b <? snd a)).
  - unfold may_precede. intros a b _ _ H. apply Nat.ltb_ge in H. exact H.
  - apply sorted_sorted; unfold may_precede.
    + intros a b H. apply Nat.ltb_lt in H. apply Nat.ltb_ge. lia.
    + intros a b c Hab Hbc. apply Nat.ltb_ge in Hab, Hbc. apply Nat.ltb_ge. lia.
Qed.

Lemma insert_keeps_ties (n : nat) (x : string * nat) (l : list (string * nat)) :
  filter (fun row => snd row =? n) (Py.insert (fun a b => snd b <? snd a) x l) =
  filter (fun row => snd row =? n) (x :: l).
Proof.
  induction l as [|y l IH]; [reflexivity|].
  cbn [Py.insert]. destruct (snd x <? snd y) eqn:Hlt; [|reflexivity].
  apply Nat.ltb_lt in Hlt. cbn [filter] in *. rewrite IH.
  destruct (Nat.eqb_spec (snd x) n), (Nat.eqb_spec (snd y) n); try reflexivity.
  lia.
Qed.

Lemma sort_values_stable_keeps_ties : keeps_ties sort_values_stable.
Proof.
  intros rows n. unfold sort_values_stable.
  induction rows as [|x rows IH]; [reflexivity|].
  cbn [Py.sorted fold_right]. rewrite insert_keeps_ties.
  cbn [filter]. unfold Py.sorted in IH. now rewrite IH.
Qed.

Lemma StronglySorted_app {A : Type} (R : A -> A -> Prop) (l1 l2 : list A) :
  StronglySorted R l1 -> StronglySorted R l2 ->
  (forall a b, In a l1 -> In b l2 -> R a b) ->
  StronglySorted R (l1 ++ l2).
Proof.
  induction 1 as [|x l1 Hs IH Hall]; intros Hl2 Hcross; simpl; [assumption|].
  constructor.
  - apply IH; [assumption|]. intros a b Ha Hb. apply Hcross; [now right | assumption].
  - rewrite Forall_forall in *. intros b Hb. apply in_app_or in Hb.
    destruct Hb as [Hb|Hb]; [now apply Hall | apply Hcross; [now left | assumption]].
Qed.

Lemma StronglySorted_rev {A : Type} (R : A -> A -> Prop) (l : list A) :
  StronglySorted R l -> StronglySorted (fun a b => R b a) (rev l).
Proof.
  induction 1 as [|x l Hs IH Hall]; simpl; [constructor|].
  apply StronglySorted_app; [assumption | repeat constructor |].
  intros a b Ha [<-|[]]. rewrite Forall_forall in Hall.
  apply Hall. now apply in_rev.
Qed.

(** The reversing sort meets what pandas promises as well, and the two
    sorts disagree on rows of equal count. *)
Lemma sort_values_reversing_ok : sorts_by_count_desc sort_values_reversing.
Proof.
  intros rows. unfold sort_values_reversing. split.
  - rewrite <- Permutation_rev. apply sorted_perm.
  - apply StronglySorted_rev with (R := fun a b : string * nat => snd a <= snd b).
    apply StronglySorted_weaken
      with (R := may_precede (fun a b : string * nat => snd a <? snd b)).
    + unfold may_precede. intros a b _ _ H. apply Nat.ltb_ge in H. exact H.
    + apply sorted_sorted; unfold may_precede.
      * intros a b H. apply Nat.ltb_lt in H. apply Nat.ltb_ge. lia.
      * intros a b c Hab Hbc. apply Nat.ltb_ge in Hab, Hbc. apply Nat.ltb_ge. lia.
Qed.

Lemma ties_not_fixed_by_the_counts :
  top_10_states sort_values_stable (renewable ds_tx_ca) = ["CA"; "TX"]%string /\
  top_10_states sort_values_reversing (renewable ds_tx_ca) = ["TX"; "CA"]%string /\
  ~ keeps_ties sort_values_reversing.
Proof.
  split; [reflexivity|]. split; [reflexivity|].
  intros H. specialize (H [("CA"%string, 1); ("TX"%string, 1)] 1).
  vm_compute in H. discriminate H.
Qed.

(** C3, amended: the default-states list has [min(10, number of distinct
    states)] entries, all distinct states of the Working Dataset, listed by
    decreasing count, and no state left out has more records than a listed
    one.  The grouping lists the states in ascending order, so whenever the
    sort of the counts keeps ties the listed states of equal count stand in
    ascending order of their names, not in first-encountered order. *)
Theorem default_states_ranked :
  forall (sort_values : list (string * nat) -> list (string * nat)),
    sorts_by_count_desc sort_values ->
    forall (dataset : list Row),
      let working := renewable dataset in
      let top := top_10_states sort_values working in
      length top = Nat.min 10 (length (Pd.unique string_dec (map State working))) /\
      NoDup top /\
      (forall s, In s top -> In s (map State working)) /\
      (forall s t, In s top -> In t (map State working) -> ~ In t top ->
                   state_count working t <= state_count working s) /\
      StronglySorted (fun s t => state_count working t <= state_count working s) top /\
      (keeps_ties sort_values ->
       forall n, StronglySorted (fun s t => String.ltb s t = true)
                                (filter (fun s => state_count working s =? n) top)).
Proof.
  intros sort_values Hok dataset working top. subst top.
  split; [now apply top_10_states_length|].
  split; [now apply top_10_states_NoDup|].
  split; [intros s; now apply top_10_states_known|].
  split; [intros s t; now apply top_10_states_dominate|].
  split; [now apply top_10_states_descending|].
  intros Hties n. now apply top_10_states_ties_ascending.
Qed.

Lemma two_states_top (sort_values : list (string * nat) -> list (string * nat)) :
  sorts_by_count_desc sort_values ->
  top_10_states sort_values (renewable ds_tx_ca) =
    top_10_states sort_values (renewable ds_ca_tx) /\
  (top_10_states sort_values (renewable ds_tx_ca) = ["CA"; "TX"]%string \/
   top_10_states sort_values (renewable ds_tx_ca) = ["TX"; "CA"]%string).
Proof.
  intros Hok. split; [reflexivity|].
  pose proof (ranked_states_perm Hok (renewable ds_tx_ca)) as Hperm.
  rewrite top_10_states_firstn.
  change (Pd.unique string_dec (map State (renewable ds_tx_ca)))
    with ["TX"; "CA"]%string in Hperm.
  apply Permutation_sym, Permutation_length_2_inv in Hperm.
  destruct Hperm as [-> | ->]; [right | left]; reflexivity.
Qed.

(** C3, refuted as worded: with one record for "TX" and then one for
    "CA", the stable sort lists "CA" before "TX", while "TX" is
    encountered first; and whatever the sort of the counts does with
    ties, it gives these two datasets the same list, which is in
    first-encountered order for at most one of them. *)
Lemma default_states_not_first_encountered :
  top_10_states sort_values_stable (renewable ds_tx_ca) = ["CA"; "TX"]%string /\
  Pd.unique string_dec (map State (renewable ds_tx_ca)) = ["TX"; "CA"]%string /\
  ~ default_states_claim sort_values_stable ds_tx_ca /\
  ~ (forall sort_values,
        sorts_by_count_desc sort_values ->
        forall dataset, default_states_claim sort_values dataset).
Proof.
  assert (Hone : forall sort_values,
             sorts_by_count_desc sort_values ->
             ~ (default_states_claim sort_values ds_tx_ca /\
                default_states_claim sort_values ds_ca_tx)).
  { intros sort_values Hok [[_ [_ H1]] [_ [_ H2]]].
    destruct (two_states_top Hok) as [Heq Htop].
    specialize (H1 1). specialize (H2 1). rewrite <- Heq in H2.
    destruct Htop as [Htop|Htop]; rewrite Htop in *.
    - vm_compute in H1. discriminate H1.
    - vm_compute in H2. discriminate H2. }
  split; [reflexivity|]. split; [reflexivity|]. split.
  - intros [_ [_ H]]. specialize (H 1). vm_compute in H. discriminate H.
  - intros Hall. apply (Hone sort_values_stable sort_values_stable_ok).
    split; apply Hall; apply sort_values_stable_ok.
Qed.

(** The amended C3 at work on the stable sort and the two-state dataset. *)
Lemma default_states_ranked_witness :
  sorts_by_count_desc sort_values_stable /\
  keeps_ties sort_values_stable /\
  length (top_10_states sort_values_stable (renewable ds_tx_ca)) = 2 /\
  StronglySorted (fun s t => String.ltb s t = true)
                 (filter (fun s => state_count (renewable ds_tx_ca) s =? 1)
                         (top_10_states sort_values_stable (renewable ds_tx_ca))).
Proof.
  split; [exact sort_values_stable_ok|].
  split; [exact sort_values_stable_keeps_ties|].
  destruct (default_states_ranked sort_values_stable_ok ds_tx_ca)
    as [Hlen [_ [_ [_ [_ Hties]]]]].
  split; [exact Hlen|].
  exact (Hties sort_values_stable_keeps_ties 1).
Defined.

(** ** The facet lists *)

Lemma Z_may_precede_strict (a b : Z) :
  may_precede Z.ltb a b -> a <> b -> Z.ltb a b = true.
Proof. unfold may_precede. rewrite Z.ltb_ge, Z.ltb_lt. lia. Qed.

Lemma perm_In_iff {A : Type} (x : A) (l l' : list A) :
  Permutation l l' -> (In x l <-> In x l').
Proof.
  intros H. split; apply Permutation_in; [assumption | now apply Permutation_sym].
Qed.

Lemma years_perm (rows : list Row) :
  Permutation (years rows) (Pd.unique Z.eq_dec (map Fiscal_Year rows)).
Proof. apply sorted_perm. Qed.

Lemma years_ascending (rows : list Row) :
  StronglySorted (fun a b => Z.ltb a b = true) (years rows).
Proof.
  apply sorted_unique_strict.
  - apply Z_may_precede_strict.
  - apply (Permutation_NoDup (Permutation_sym (years_perm rows))).
    apply unique_NoDup.
  - apply sorted_sorted; unfold may_precede; intros *; rewrite ?Z.ltb_ge, ?Z.ltb_lt; lia.
Qed.

Lemma insert_r_cells (x : string) (l : list string) :
  Py.insert_r Py.lt_cell (Some x) (map Some l) =
  Ok (map Some (Py.insert String.ltb x l)).
Proof.
  induction l as [|y l IH]; [reflexivity|].
  cbn [map Py.insert_r Py.insert Py.lt_cell Py.bind].
  destruct (String.ltb y x); [|reflexivity].
  rewrite IH. reflexivity.
Qed.

Lemma sorted_r_cells (l : list string) :
  Py.sorted_r Py.lt_cell (map Some l) = Ok (map Some (Py.sorted String.ltb l)).
Proof.
  induction l as [|x l IH]; [reflexivity|].
  cbn [map Py.sorted_r]. rewrite IH. cbn [Py.bind]. apply insert_r_cells.
Qed.

Lemma unique_map_Some (l : list string) :
  Pd.unique cell_eq_dec (map Some l) = map Some (Pd.unique string_dec l).
Proof.
  induction l as [|x l IH]; [reflexivity|].
  cbn [map Pd.unique]. rewrite IH. f_equal.
  generalize (Pd.unique string_dec l). intros u.
  induction u as [|y u IHu]; [reflexivity|].
  cbn [map filter].
  destruct (cell_eq_dec (Some x) (Some y)) as [Heq|Hne], (string_dec x y) as [Heq'|Hne'];
    cbn [map]; try congruence.
Qed.

Lemma sources_present (rows : list Row) :
  (forall r, In r rows -> Source r <> None) ->
  map Source rows = map Some (map source_text rows).
Proof.
  intros Hsrc. rewrite map_map. apply map_ext_in. intros r Hr.
  unfold source_text. destruct (Source r) eqn:Hs; [reflexivity|].
  exfalso. now apply (Hsrc r).
Qed.

(** What lines 11 to 15 compute when every row has a [Source]: three
    lists of the distinct values, each in strictly ascending order. *)
Lemma facet_lists_ascending (rows : list Row) :
  (forall r, In r rows -> Source r <> None) ->
  StronglySorted (fun a b => Z.ltb a b = true) (years rows) /\
  (forall y, In y (years rows) <-> In y (map Fiscal_Year rows)) /\
  StronglySorted (fun a b => String.ltb a b = true) (all_states rows) /\
  (forall s, In s (all_states rows) <-> In s (map State rows)) /\
  exists texts,
    sources rows = Ok (map Some texts) /\
    StronglySorted (fun a b => String.ltb a b = true) texts /\
    (forall s, In s texts <-> In (Some s) (map Source rows)).
Proof.
  intros Hsrc.
  split; [apply years_ascending|].
  split.
  { intros y. rewrite (perm_In_iff y (years_perm rows)). apply unique_In. }
  split; [apply all_states_ascending|].
  split.
  { intros s. rewrite (perm_In_iff s (all_states_perm rows)). apply unique_In. }
  exists (Py.sorted String.ltb (Pd.unique string_dec (map source_text rows))).
  split.
  { unfold sources. now rewrite (sources_present rows Hsrc), unique_map_Some, sorted_r_cells. }
  split.
  { apply sorted_unique_strict.
    - apply string_may_precede_strict.
    - apply (Permutation_NoDup (Permutation_sym (sorted_perm _ _))). apply unique_NoDup.
    - apply sorted_sorted; [apply string_ltb_asym | apply string_may_precede_trans]. }
  intros s. rewrite (sources_present rows Hsrc).
  transitivity (In s (map source_text rows)).
  - rewrite (perm_In_iff s (sorted_perm String.ltb _)). apply unique_In.
  - split; intros H.
    + now apply in_map.
    + apply in_map_iff in H. destruct H as [x [Hx Hin]]. now injection Hx as ->.
Qed.

(** ** A missing [Source] next to a present one *)

Lemma insert_r_outcome (x : option string) (l : list (option string)) :
  match Py.insert_r Py.lt_cell x l with
  | Ok l' => forall c, In c l' <-> c = x \/ In c l
  | Raise e => e = TypeError
  end.
Proof.
  induction l as [|y l IH]; cbn [Py.insert_r].
  - intros c. simpl. intuition congruence.
  - destruct (Py.lt_cell y x) as [b|e] eqn:Hlt; cbn [Py.bind].
    + destruct b.
      * destruct (Py.insert_r Py.lt_cell x l) as [l'|e]; cbn [Py.bind]; [|assumption].
        intros c. simpl. rewrite IH. tauto.
      * intros c. simpl. intuition congruence.
    + destruct y, x; simpl in Hlt; congruence.
Qed.

Lemma sorted_r_outcome (l : list (option string)) :
  match Py.sorted_r Py.lt_cell l with
  | Ok l' => forall c, In c l' <-> In c l
  | Raise e => e = TypeError
  end.
Proof.
  induction l as [|x l IH]; cbn [Py.sorted_r].
  - intros c. reflexivity.
  - destruct (Py.sorted_r Py.lt_cell l) as [l'|e]; cbn [Py.bind]; [|assumption].
    pose proof (insert_r_outcome x l') as Hins.
    destruct (Py.insert_r Py.lt_cell x l') as [l''|e]; [|assumption].
    intros c. rewrite Hins, IH. simpl. split; intros [H|H]; auto.
Qed.

(** [sorted] raises as soon as NaN meets a string. *)
Lemma sorted_r_mixed (l : list (option string)) (s : string) :
  In None l -> In (Some s) l -> Py.sorted_r Py.lt_cell l = Raise TypeError.
Proof.
  revert s. induction l as [|x l IH]; intros s Hnone Hsome; [contradiction|].
  cbn [Py.sorted_r].
  pose proof (sorted_r_outcome l) as Hout.
  destruct (Py.sorted_r Py.lt_cell l) as [l'|e]; cbn [Py.bind]; [|now subst e].
  destruct l' as [|y l'].
  - exfalso. destruct Hnone as [->|Hn].
    + destruct Hsome as [Hs|Hs]; [discriminate | now apply Hout in Hs].
    + now apply Hout in Hn.
  - cbn [Py.insert_r].
    destruct x as [t|], y as [u|]; cbn [Py.lt_cell Py.bind]; try reflexivity.
    + exfalso. destruct Hnone as [Hn|Hn]; [discriminate|].
      assert (Hu : In (Some u) l) by (apply Hout; now left).
      discriminate (IH u Hn Hu).
    + exfalso. destruct Hsome as [Hs|Hs]; [discriminate|].
      assert (Hn : In None l) by (apply Hout; now left).
      discriminate (IH s Hn Hs).
Qed.

Lemma sources_mixed (rows : list Row) (r1 r2 : Row) (s : string) :
  In r1 rows -> Source r1 = None ->
  In r2 rows -> Source r2 = Some s ->
  sources rows = Raise TypeError.
Proof.
  intros H1 Hs1 H2 Hs2. unfold sources. apply sorted_r_mixed with s.
  - apply unique_In. rewrite <- Hs1. now apply in_map.
  - apply unique_In. rewrite <- Hs2. now apply in_map.
Qed.

(** C9, at the failing input: the record without [Source] is retained by
    the filter, and the list of sources is then not produced: sorting it
    raises [TypeError], and so does the constructor. *)
Theorem sources_missing_raises :
  renewable ds_missing_source = ds_missing_source /\
  sources (renewable ds_missing_source) = Raise TypeError /\
  forall sort_values palette,
    create_renewable_dashboard sort_values ds_missing_source palette = Raise TypeError.
Proof. repeat split. Qed.

(** ** The constructor *)

Lemma renewable_nil_iff (dataset : list Row) :
  renewable dataset = [] <-> forall r, In r dataset -> excluded r = true.
Proof.
  rewrite renewable_filter. split.
  - intros Hnil r Hr. destruct (excluded r) eqn:Hex; [reflexivity|].
    assert (Hin : In r (filter (fun r => negb (excluded r)) dataset))
      by (apply filter_In; now rewrite Hex).
    rewrite Hnil in Hin. contradiction.
  - intros Hall. apply filter_nil_all_false. intros r Hr.
    now rewrite (Hall r Hr).
Qed.

(** C10: when the Renewable Filter leaves no record, the list of years is
    empty, [min] of it raises [ValueError], and the constructor raises
    that error instead of returning a dashboard. *)
Theorem empty_working_dataset_raises :
  forall (sort_values : list (string * nat) -> list (string * nat))
         (dataset : list Row) (palette : list string),
    renewable dataset = [] ->
    years (renewable dataset) = [] /\
    Py.min (years (renewable dataset)) = Raise ValueError /\
    create_renewable_dashboard sort_values dataset palette = Raise ValueError /\
    forall app, create_renewable_dashboard sort_values dataset palette <> Ok app.
Proof.
  intros sort_values dataset palette Hnil.
  assert (Hfail : create_renewable_dashboard sort_values dataset palette = Raise ValueError)
    by (unfold create_renewable_dashboard; rewrite Hnil; reflexivity).
  rewrite Hfail, Hnil. repeat split. intros app. discriminate.
Qed.

(** ** The scenario of the specification *)

Example scenario_table_a :
  renewable ds_scenario = [mkRow (Some "Solar Grant"%string) "CA" 2020] /\
  exists state_chart time_chart,
    update_graphs (renewable ds_scenario) extended_palette [2020; 2020]%Z
                  ["CA"%string] ["Solar Grant"%string]
    = Ok (state_chart, time_chart) /\
    data_frame state_chart = [("CA"%string, "Solar Grant"%string, 1)].
Proof. split; [reflexivity|]. eexists. eexists. split; reflexivity. Qed.

Example scenario_without_colours :
  update_graphs (renewable ds_scenario) [] [2020; 2020]%Z
                ["CA"%string] ["Solar Grant"%string]
  = Raise ZeroDivisionError.
Proof. reflexivity. Qed.

(** ** The theorems at concrete inputs *)

Lemma renewable_excludes_keywords_witness :
  In (mkRow (Some "Solar Grant"%string) "CA" 2020) (renewable ds_scenario) /\
  In "Sold"%string exclusion_keywords /\
  ~ contains_ignoring_case "Solar Grant" "Sold".
Proof.
  assert (Hin : In (mkRow (Some "Solar Grant"%string) "CA" 2020) (renewable ds_scenario))
    by (left; reflexivity).
  assert (Hkw : In "Sold"%string exclusion_keywords) by (simpl; auto).
  split; [exact Hin|]. split; [exact Hkw|].
  exact (renewable_excludes_keywords ds_scenario _ Hin eq_refl Hkw).
Defined.

Lemma renewable_keeps_missing_source_witness :
  In (mkRow None "CA" 2020) ds_missing_source /\
  In (mkRow None "CA" 2020) (renewable ds_missing_source).
Proof.
  assert (Hin : In (mkRow None "CA" 2020) ds_missing_source) by (left; reflexivity).
  split; [exact Hin|].
  exact (proj2 (renewable_keeps_missing_source ds_missing_source _ Hin eq_refl)).
Defined.




Lemma empty_selection_empty_tables_witness :
  exists state_chart time_chart,
    update_graphs (renewable ds_scenario) [] [2020; 2020]%Z ["CA"%string] []
    = Ok (state_chart, time_chart) /\
    data_frame state_chart = [] /\ data_frame time_chart = [].
Proof.
  exact (empty_selection_empty_tables ds_scenario []
           {| yearMin := 2020; yearMax := 2020;
              sel_states := ["CA"%string]; sel_sources := [] |}
           (or_intror eq_refl)).
Defined.

Lemma reversed_range_empty_tables_witness :
  exists state_chart time_chart,
    update_graphs (renewable ds_scenario) [] [2021; 2020]%Z
                  ["CA"%string] ["Solar Grant"%string]
    = Ok (state_chart, time_chart) /\
    data_frame state_chart = [] /\ data_frame time_chart = [].
Proof.
  exact (reversed_range_empty_tables ds_scenario []
           {| yearMin := 2021; yearMax := 2020;
              sel_states := ["CA"%string]; sel_sources := ["Solar Grant"%string] |}
           eq_refl).
Defined.

Lemma empty_working_dataset_raises_witness :
  renewable ds_all_excluded = [] /\
  create_renewable_dashboard sort_values_stable ds_all_excluded [] = Raise ValueError.
Proof.
  split; [reflexivity|].
  exact (proj1 (proj2 (proj2
    (empty_working_dataset_raises sort_values_stable ds_all_excluded [] eq_refl)))).
Defined.

(* ================================================================== *)
(** * Further properties of the constructor and of the callback *)
(* ================================================================== *)

(** ** The filter as an operation on datasets *)

Lemma filter_idempotent {A : Type} (p : A -> bool) (l : list A) :
  filter p (filter p l) = filter p l.
Proof.
  induction l as [|x l IH]; simpl; [reflexivity|].
  destruct (p x) eqn:Hp; simpl; [rewrite Hp, IH; reflexivity | assumption].
Qed.

(** Filtering a Working Dataset again changes nothing. *)
Theorem renewable_idempotent :
  forall dataset : list Row, renewable (renewable dataset) = renewable dataset.
Proof.
  intros dataset. rewrite !renewable_filter. apply filter_idempotent.
Qed.

(** The filter works record by record: the Working Dataset of two datasets
    put end to end is the two Working Datasets put end to end, so records
    are neither reordered nor merged. *)
Theorem renewable_app :
  forall d1 d2 : list Row, renewable (d1 ++ d2) = renewable d1 ++ renewable d2.
Proof.
  intros d1 d2. rewrite !renewable_filter. apply filter_app.
Qed.

Lemma search_lower (alts : list string) (s1 s2 : string) :
  lower s1 = lower s2 ->
  Re.search_from true alts s1 = Re.search_from true alts s2.
Proof.
  intros Hlow.
  destruct (Re.search_from true alts s1) eqn:H1, (Re.search_from true alts s2) eqn:H2;
    try reflexivity.
  - apply search_from_contains in H1. destruct H1 as [lit [Hin Hc]].
    unfold contains_ignoring_case in Hc. rewrite Hlow in Hc.
    assert (Hfound : Re.search_from true alts s2 = true)
      by (apply search_from_contains; now exists lit).
    congruence.
  - apply search_from_contains in H2. destruct H2 as [lit [Hin Hc]].
    unfold contains_ignoring_case in Hc. rewrite <- Hlow in Hc.
    assert (Hfound : Re.search_from true alts s1 = true)
      by (apply search_from_contains; now exists lit).
    congruence.
Qed.

(** Two records whose [Source] differ by letter case only are both
    retained or both dropped. *)
Theorem renewable_ignores_case :
  forall (dataset : list Row) (r1 r2 : Row) (s1 s2 : string),
    In r1 dataset -> In r2 dataset ->
    Source r1 = Some s1 -> Source r2 = Some s2 ->
    lower s1 = lower s2 ->
    (In r1 (renewable dataset) <-> In r2 (renewable dataset)).
Proof.
  intros dataset r1 r2 s1 s2 H1 H2 Hs1 Hs2 Hlow.
  rewrite !renewable_In. unfold excluded. rewrite Hs1, Hs2.
  unfold Re.search. rewrite (search_lower _ s1 s2 Hlow). tauto.
Qed.

Lemma renewable_ignores_case_witness :
  In (mkRow (Some "REC SOLD"%string) "TX" 2021)
     (renewable [mkRow (Some "REC SOLD"%string) "TX" 2021;
                 mkRow (Some "REC sold"%string) "TX" 2021]) <->
  In (mkRow (Some "REC sold"%string) "TX" 2021)
     (renewable [mkRow (Some "REC SOLD"%string) "TX" 2021;
                 mkRow (Some "REC sold"%string) "TX" 2021]).
Proof.
  refine (@renewable_ignores_case _ (mkRow (Some "REC SOLD"%string) "TX" 2021)
            (mkRow (Some "REC sold"%string) "TX" 2021)
            "REC SOLD" "REC sold" _ _ eq_refl eq_refl eq_refl).
  - left; reflexivity.
  - right; left; reflexivity.
Defined.

(** ** When the constructor raises *)

(** Whenever the filter retains a record without [Source] and a record
    with one, the constructor raises [TypeError], whatever the rest of the
    dataset and the palette. *)
Theorem create_renewable_dashboard_mixed_sources :
  forall (sort_values : list (string * nat) -> list (string * nat))
         (dataset : list Row) (palette : list string) (r1 r2 : Row) (s : string),
    In r1 (renewable dataset) -> Source r1 = None ->
    In r2 (renewable dataset) -> Source r2 = Some s ->
    create_renewable_dashboard sort_values dataset palette = Raise TypeError.
Proof.
  intros sort_values dataset palette r1 r2 s H1 Hs1 H2 Hs2.
  unfold create_renewable_dashboard.
  now rewrite (sources_mixed (renewable dataset) r1 r2 H1 Hs1 H2 Hs2).
Qed.

Lemma create_renewable_dashboard_mixed_sources_witness :
  create_renewable_dashboard sort_values_stable
    (mkRow (Some "Wind Consumption Report"%string) "NV" 2019 :: ds_missing_source) []
  = Raise TypeError.
Proof.
  refine (@create_renewable_dashboard_mixed_sources sort_values_stable _ []
            (mkRow None "CA" 2020) (mkRow (Some "Solar Grant"%string) "CA" 2020)
            "Solar Grant" _ eq_refl _ eq_refl).
  - left; reflexivity.
  - right; left; reflexivity.
Defined.

(** What a returned application is made of. *)
Lemma create_renewable_dashboard_inv
      (sort_values : list (string * nat) -> list (string * nat))
      (dataset : list Row) (palette : list string) (app : App) :
  create_renewable_dashboard sort_values dataset palette = Ok app ->
  exists cells lo hi,
    sources (renewable dataset) = Ok cells /\
    Py.min (years (renewable dataset)) = Ok lo /\
    Py.max (years (renewable dataset)) = Ok hi /\
    app_renewable app = renewable dataset /\
    app_color_palette app = palette /\
    year_slider app =
      {| slider_min := lo; slider_max := hi; slider_value := [lo; hi];
         slider_marks := map (fun year => (year, Py.str year))
                             (years (renewable dataset)) |} /\
    state_selector app =
      {| dropdown_options := map (fun state => (state, state))
                                 (all_states (renewable dataset));
         dropdown_value := top_10_states sort_values (renewable dataset) |} /\
    source_selector app =
      {| dropdown_options := map (fun source => (source, source)) cells;
         dropdown_value := cells |}.
Proof.
  unfold create_renewable_dashboard.
  destruct (sources (renewable dataset)) as [cells|e]; cbn [Py.bind]; [|discriminate].
  destruct (Py.min (years (renewable dataset))) as [lo|e]; cbn [Py.bind]; [|discriminate].
  destruct (Py.max (years (renewable dataset))) as [hi|e]; cbn [Py.bind]; [|discriminate].
  intros H. injection H as <-. exists cells, lo, hi. repeat split; reflexivity.
Qed.

(** ** The controls of the layout *)

Lemma fold_min_spec (rest : list Z) (x : Z) :
  let m := fold_left (fun m y => if (y <? m)%Z then y else m) rest x in
  (m = x \/ In m rest) /\ (m <= x)%Z /\ forall y, In y rest -> (m <= y)%Z.
Proof.
  revert x. induction rest as [|y rest IH]; intros x; simpl.
  - split; [now left|]. split; [lia | contradiction].
  - specialize (IH (if (y <? x)%Z then y else x)). simpl in IH.
    destruct IH as [Hmem [Hle Hall]].
    destruct (Z.ltb_spec y x).
    + split; [destruct Hmem as [->|Hm]; auto|]. split; [lia|].
      intros z [<-|Hz]; [assumption | now apply Hall].
    + split; [destruct Hmem as [->|Hm]; auto|]. split; [assumption|].
      intros z [<-|Hz]; [lia | now apply Hall].
Qed.

Lemma fold_max_spec (rest : list Z) (x : Z) :
  let m := fold_left (fun m y => if (m <? y)%Z then y else m) rest x in
  (m = x \/ In m rest) /\ (x <= m)%Z /\ forall y, In y rest -> (y <= m)%Z.
Proof.
  revert x. induction rest as [|y rest IH]; intros x; simpl.
  - split; [now left|]. split; [lia | contradiction].
  - specialize (IH (if (x <? y)%Z then y else x)). simpl in IH.
    destruct IH as [Hmem [Hle Hall]].
    destruct (Z.ltb_spec x y).
    + split; [destruct Hmem as [->|Hm]; auto|]. split; [lia|].
      intros z [<-|Hz]; [assumption | now apply Hall].
    + split; [destruct Hmem as [->|Hm]; auto|]. split; [assumption|].
      intros z [<-|Hz]; [lia | now apply Hall].
Qed.

Lemma min_spec (xs : list Z) (m : Z) :
  Py.min xs = Ok m -> In m xs /\ forall y, In y xs -> (m <= y)%Z.
Proof.
  destruct xs as [|x rest]; [discriminate|]. unfold Py.min. intros H.
  injection H as <-. destruct (fold_min_spec rest x) as [Hmem [Hle Hall]].
  split.
  - destruct Hmem as [->|Hm]; [now left | now right].
  - intros y [<-|Hy]; [assumption | now apply Hall].
Qed.

Lemma max_spec (xs : list Z) (m : Z) :
  Py.max xs = Ok m -> In m xs /\ forall y, In y xs -> (y <= m)%Z.
Proof.
  destruct xs as [|x rest]; [discriminate|]. unfold Py.max. intros H.
  injection H as <-. destruct (fold_max_spec rest x) as [Hmem [Hle Hall]].
  split.
  - destruct Hmem as [->|Hm]; [now left | now right].
  - intros y [<-|Hy]; [assumption | now apply Hall].
Qed.

Lemma years_In (rows : list Row) (y : Z) :
  In y (years rows) <-> exists r, In r rows /\ Fiscal_Year r = y.
Proof.
  rewrite (perm_In_iff y (years_perm rows)), unique_In, in_map_iff.
  split; intros [r [H1 H2]]; exists r; auto.
Qed.

Lemma all_states_In (rows : list Row) (s : string) :
  In s (all_states rows) <-> exists r, In r rows /\ State r = s.
Proof.
  rewrite (perm_In_iff s (all_states_perm rows)), unique_In, in_map_iff.
  split; intros [r [H1 H2]]; exists r; auto.
Qed.

Lemma year_slider_bounds
      (sort_values : list (string * nat) -> list (string * nat))
      (dataset : list Row) (palette : list string) (app : App) :
  create_renewable_dashboard sort_values dataset palette = Ok app ->
  forall r, In r (renewable dataset) ->
            (slider_min (year_slider app) <= Fiscal_Year r
             <= slider_max (year_slider app))%Z.
Proof.
  intros Hcreate r Hr.
  destruct (create_renewable_dashboard_inv _ _ _ Hcreate)
    as [cells [lo [hi [_ [Hmin [Hmax [_ [_ [-> _]]]]]]]]].
  cbn [slider_min slider_max].
  apply min_spec in Hmin. apply max_spec in Hmax.
  assert (Hy : In (Fiscal_Year r) (years (renewable dataset)))
    by (apply years_In; now exists r).
  split; [now apply (proj2 Hmin) | now apply (proj2 Hmax)].
Qed.

(** The year slider of a returned dashboard spans the Working Dataset: its
    two bounds are fiscal years of retained records, every retained record
    lies between them, and the slider starts on the full range. *)
Theorem year_slider_spans_working_dataset :
  forall (sort_values : list (string * nat) -> list (string * nat))
         (dataset : list Row) (palette : list string) (app : App),
    create_renewable_dashboard sort_values dataset palette = Ok app ->
    slider_value (year_slider app) =
      [slider_min (year_slider app); slider_max (year_slider app)] /\
    (exists r, In r (renewable dataset) /\
               Fiscal_Year r = slider_min (year_slider app)) /\
    (exists r, In r (renewable dataset) /\
               Fiscal_Year r = slider_max (year_slider app)) /\
    (forall r, In r (renewable dataset) ->
               (slider_min (year_slider app) <= Fiscal_Year r
                <= slider_max (year_slider app))%Z).
Proof.
  intros sort_values dataset palette app Hcreate.
  destruct (create_renewable_dashboard_inv _ _ _ Hcreate)
    as [cells [lo [hi [_ [Hmin [Hmax [_ [_ [-> _]]]]]]]]].
  cbn [slider_value slider_min slider_max].
  apply min_spec in Hmin. apply max_spec in Hmax.
  destruct Hmin as [Hlo Hlow], Hmax as [Hhi Hhigh].
  split; [reflexivity|].
  split; [now apply years_In|]. split; [now apply years_In|].
  intros r Hr.
  assert (Hy : In (Fiscal_Year r) (years (renewable dataset)))
    by (apply years_In; now exists r).
  split; [now apply Hlow | now apply Hhigh].
Qed.

Lemma year_slider_spans_working_dataset_witness :
  exists app,
    create_renewable_dashboard sort_values_stable ds_eleven_states [] = Ok app /\
    forall r, In r (renewable ds_eleven_states) ->
              (slider_min (year_slider app) <= Fiscal_Year r
               <= slider_max (year_slider app))%Z.
Proof.
  eexists. split; [reflexivity|].
  exact (proj2 (proj2 (proj2
    (year_slider_spans_working_dataset sort_values_stable ds_eleven_states []
                                       eq_refl)))).
Defined.

(** The three controls of a returned dashboard offer exactly what the
    Working Dataset holds: one mark per fiscal year, in ascending order and
    labelled with the year; one option per state, in ascending order, label
    and value alike; one option per [Source] cell, all of them selected. *)
Theorem controls_offer_the_working_dataset :
  forall (sort_values : list (string * nat) -> list (string * nat))
         (dataset : list Row) (palette : list string) (app : App),
    create_renewable_dashboard sort_values dataset palette = Ok app ->
    StronglySorted (fun a b => Z.ltb a b = true)
                   (map fst (slider_marks (year_slider app))) /\
    (forall y label, In (y, label) (slider_marks (year_slider app)) <->
                     label = Py.str y /\
                     exists r, In r (renewable dataset) /\ Fiscal_Year r = y) /\
    StronglySorted (fun a b => String.ltb a b = true)
                   (map snd (dropdown_options (state_selector app))) /\
    (forall label s, In (label, s) (dropdown_options (state_selector app)) <->
                     label = s /\
                     exists r, In r (renewable dataset) /\ State r = s) /\
    (forall label c, In (label, c) (dropdown_options (source_selector app)) <->
                     label = c /\
                     exists r, In r (renewable dataset) /\ Source r = c) /\
    dropdown_value (source_selector app) =
      map snd (dropdown_options (source_selector app)).
Proof.
  intros sort_values dataset palette app Hcreate.
  destruct (create_renewable_dashboard_inv _ _ _ Hcreate)
    as [cells [lo [hi [Hsrc [_ [_ [_ [_ [-> [-> ->]]]]]]]]]].
  cbn [slider_marks dropdown_options dropdown_value].
  rewrite !map_map. cbn [fst snd]. rewrite !map_id.
  split; [apply years_ascending|].
  split.
  { intros y label. rewrite in_map_iff. split.
    - intros [y' [Heq Hy]]. injection Heq as <- <-.
      split; [reflexivity | now apply years_In].
    - intros [-> Hy]. exists y. split; [reflexivity | now apply years_In]. }
  split; [apply all_states_ascending|].
  split.
  { intros label s. rewrite in_map_iff. split.
    - intros [s' [Heq Hs]]. injection Heq as <- <-.
      split; [reflexivity | now apply all_states_In].
    - intros [-> Hs]. exists s. split; [reflexivity | now apply all_states_In]. }
  split; [|reflexivity].
  pose proof (sorted_r_outcome (Pd.unique cell_eq_dec (map Source (renewable dataset))))
    as Hout.
  unfold sources in Hsrc. rewrite Hsrc in Hout.
  intros label c. rewrite in_map_iff. split.
  - intros [c' [Heq Hc]]. injection Heq as <- <-. split; [reflexivity|].
    apply Hout, unique_In, in_map_iff in Hc. destruct Hc as [r [H1 H2]]. now exists r.
  - intros [-> [r [Hr Hc]]]. exists c. split; [reflexivity|].
    apply Hout, unique_In. rewrite <- Hc. now apply in_map.
Qed.

Lemma controls_offer_the_working_dataset_witness :
  exists app,
    create_renewable_dashboard sort_values_stable ds_scenario [] = Ok app /\
    dropdown_value (source_selector app) =
      map snd (dropdown_options (source_selector app)).
Proof.
  eexists. split; [reflexivity|].
  exact (proj2 (proj2 (proj2 (proj2 (proj2
    (controls_offer_the_working_dataset sort_values_stable ds_scenario []
                                        eq_refl)))))).
Defined.

(** ** The grouping by state and the default states *)

(** The grouping of line 18 lists every state of its rows once, in
    ascending order, each with the number of its rows, which is at least
    one; the counts add up to the number of rows. *)
Theorem state_counts_complete :
  forall rows : list Row,
    map fst (state_counts rows) = all_states rows /\
    (forall s n, In (s, n) (state_counts rows) ->
                 n = state_count rows s /\ 1 <= n /\
                 exists r, In r rows /\ State r = s) /\
    total_count (state_counts rows) = length rows.
Proof.
  intros rows. split; [|split].
  - rewrite state_counts_rows, map_map. simpl. apply map_id.
  - intros s n Hin. rewrite state_counts_rows in Hin.
    apply in_map_iff in Hin. destruct Hin as [s' [Heq Hs]]. injection Heq as <- <-.
    assert (Hr : exists r, In r rows /\ State r = s') by now apply all_states_In.
    split; [reflexivity|]. split; [|assumption].
    destruct Hr as [r [Hr <-]]. unfold state_count.
    apply (count_occ_In string_dec). now apply in_map.
  - unfold state_counts. rewrite groupby_size_total, dropna_map_Some.
    apply length_map.
Qed.

Lemma filter_all_true {A : Type} (p : A -> bool) (l : list A) :
  (forall x, In x l -> p x = true) -> filter p l = l.
Proof.
  induction l as [|x l IH]; intros H; simpl; [reflexivity|].
  rewrite (H x (or_introl eq_refl)). f_equal. apply IH. intros y Hy. apply H. now right.
Qed.

(** With at most ten states the ranking is not cut. *)
Lemma default_states_cover
      (sort_values : list (string * nat) -> list (string * nat)) (rows : list Row) :
  sorts_by_count_desc sort_values ->
  length (all_states rows) <= 10 ->
  forall s, In s (map State rows) -> In s (top_10_states sort_values rows).
Proof.
  intros Hok Hfew s Hs.
  rewrite (top_10_states_firstn sort_values rows), firstn_all2.
  - apply (Permutation_in _ (Permutation_sym (ranked_states_perm Hok rows))).
    now apply unique_In.
  - rewrite (Permutation_length (ranked_states_perm Hok rows)).
    now rewrite <- (Permutation_length (all_states_perm rows)).
Qed.

(** Every default state of a returned dashboard is one of the options of
    the state control; with at most ten states in the Working Dataset all
    of them are selected by default. *)
Theorem default_states_selectable :
  forall (sort_values : list (string * nat) -> list (string * nat))
         (dataset : list Row) (palette : list string) (app : App),
    sorts_by_count_desc sort_values ->
    create_renewable_dashboard sort_values dataset palette = Ok app ->
    (forall s, In s (dropdown_value (state_selector app)) ->
               In s (map snd (dropdown_options (state_selector app)))) /\
    (length (dropdown_options (state_selector app)) <= 10 ->
     forall s, In s (map snd (dropdown_options (state_selector app))) ->
               In s (dropdown_value (state_selector app))).
Proof.
  intros sort_values dataset palette app Hok Hcreate.
  destruct (create_renewable_dashboard_inv _ _ _ Hcreate)
    as [cells [lo [hi [_ [_ [_ [_ [_ [_ [-> _]]]]]]]]]].
  cbn [dropdown_options dropdown_value].
  rewrite map_map, length_map. cbn [snd]. rewrite map_id.
  split.
  - intros s Hs. apply all_states_In.
    apply (top_10_states_known Hok) in Hs. apply in_map_iff in Hs.
    destruct Hs as [r [H1 H2]]. exists r. auto.
  - intros Hfew s Hs. apply (@default_states_cover _ _ Hok Hfew).
    apply all_states_In in Hs. destruct Hs as [r [Hr <-]]. now apply in_map.
Qed.

Lemma default_states_selectable_witness :
  exists app,
    create_renewable_dashboard sort_values_stable ds_tx_ca [] = Ok app /\
    forall s, In s (map snd (dropdown_options (state_selector app))) ->
              In s (dropdown_value (state_selector app)).
Proof.
  eexists. split; [reflexivity|].
  refine (proj2 (@default_states_selectable sort_values_stable ds_tx_ca [] _
                   sort_values_stable_ok eq_refl) _).
  simpl. lia.
Defined.

(** ** The first rendering *)

Lemma state_among_spec (states : list string) (r : Row) :
  state_among states r = existsb (String.eqb (State r)) states.
Proof. unfold state_among. apply in_dec_existsb. Qed.



(** ** The callback on any request *)

Lemma px_figure_raises {X : Type} (frame : list (X * string * nat))
      (colours : list string) (text : string) (e : exn) :
  px_figure frame colours text = Raise e -> e = ZeroDivisionError.
Proof.
  unfold px_figure. destruct frame, colours; intros H; try discriminate.
  now injection H.
Qed.



Lemma row_included_b_ext (sel sel' : Selection) (r : Row) :
  (row_included sel r <-> row_included sel' r) ->
  row_included_b sel r = row_included_b sel' r.
Proof.
  intros Hiff.
  destruct (row_included_b sel r) eqn:H1, (row_included_b sel' r) eqn:H2;
    try reflexivity.
  - apply row_included_b_spec, Hiff, row_included_b_spec in H1. congruence.
  - apply row_included_b_spec, Hiff, row_included_b_spec in H2. congruence.
Qed.



Lemma filter_length_mono {A : Type} (p q : A -> bool) (l : list A) :
  (forall x, p x = true -> q x = true) ->
  length (filter p l) <= length (filter q l).
Proof.
  intros Himp. induction l as [|x l IH]; simpl; [lia|].
  destruct (p x) eqn:Hp.
  - rewrite (Himp x Hp). simpl. lia.
  - destruct (q x); simpl; lia.
Qed.

Lemma widens_included (sel sel' : Selection) (r : Row) :
  widens sel sel' -> row_included_b sel r = true -> row_included_b sel' r = true.
Proof.
  intros [Hlo [Hhi [Hst Hsrc]]] H. apply row_included_b_spec in H.
  apply row_included_b_spec. destruct H as [Hy [Hs [s [Hs1 Hs2]]]].
  split; [lia|]. split; [now apply Hst|]. exists s. split; [assumption | now apply Hsrc].
Qed.



(** ** The shape of the tables *)

Lemma string_ltb_strict_total : strict_total String.ltb.
Proof.
  split; [apply string_ltb_irrefl|]. split; [apply string_ltb_trans|].
  apply string_ltb_total.
Qed.

Lemma Z_ltb_strict_total : strict_total Z.ltb.
Proof.
  split; [apply Z.ltb_irrefl|]. split.
  - intros a b c. rewrite !Z.ltb_lt. lia.
  - intros a b. rewrite !Z.ltb_lt. lia.
Qed.

Section StrictTotal.
Context {A : Type} (lt : A -> A -> bool).
Hypothesis lt_order : strict_total lt.

Lemma strict_total_asym (a b : A) : lt a b = true -> lt b a = false.
Proof.
  destruct lt_order as [Hirr [Htrans _]]. intros Hab.
  destruct (lt b a) eqn:Hba; [|reflexivity].
  rewrite <- (Hirr a). symmetry. now apply Htrans with b.
Qed.

Lemma strict_total_may_precede_trans (a b c : A) :
  may_precede lt a b -> may_precede lt b c -> may_precede lt a c.
Proof.
  destruct lt_order as [Hirr [Htrans Htotal]]. unfold may_precede. intros Hab Hbc.
  destruct (lt c a) eqn:Hca; [|reflexivity].
  destruct (Htotal a b) as [H|[H|H]].
  - rewrite <- Hbc. symmetry. now apply Htrans with a.
  - subst b. congruence.
  - congruence.
Qed.

Lemma strict_total_may_precede_strict (a b : A) :
  may_precede lt a b -> a <> b -> lt a b = true.
Proof.
  destruct lt_order as [_ [_ Htotal]]. unfold may_precede. intros Hba Hne.
  destruct (Htotal a b) as [H|[H|H]]; [assumption | contradiction | congruence].
Qed.

End StrictTotal.

Lemma lex_lt_strict_total {A B : Type} (ltA : A -> A -> bool) (ltB : B -> B -> bool) :
  strict_total ltA -> strict_total ltB -> strict_total (lex_lt ltA ltB).
Proof.
  intros HA HB.
  pose proof (strict_total_asym HA) as HasymA.
  destruct HA as [HirrA [HtransA HtotalA]], HB as [HirrB [HtransB HtotalB]].
  unfold lex_lt. split; [|split].
  - intros [a b]. simpl. now rewrite HirrA, HirrB.
  - intros [a1 b1] [a2 b2] [a3 b3]. simpl.
    rewrite !orb_true_iff, !andb_true_iff, !negb_true_iff.
    intros [H12|[N12 L12]] [H23|[N23 L23]].
    + left. now apply HtransA with a2.
    + destruct (HtotalA a2 a3) as [H|[H|H]]; [| |congruence].
      * left. now apply HtransA with a2.
      * subst a3. now left.
    + destruct (HtotalA a1 a2) as [H|[H|H]]; [| |congruence].
      * left. now apply HtransA with a2.
      * subst a2. now left.
    + destruct (HtotalA a1 a2) as [H|[H|H]]; [| |congruence].
      * destruct (HtotalA a2 a3) as [H'|[H'|H']]; [| |congruence].
        -- left. now apply HtransA with a2.
        -- subst a3. now left.
      * subst a2. destruct (HtotalA a1 a3) as [H'|[H'|H']]; [now left | |congruence].
        subst a3. right. split; [apply HirrA | now apply HtransB with b2].
  - intros [a1 b1] [a2 b2]. simpl.
    destruct (HtotalA a1 a2) as [H|[H|H]].
    + left. now rewrite H.
    + subst a2. rewrite HirrA. simpl.
      destruct (HtotalB b1 b2) as [H|[H|H]]; [now left | subst; right; now left |].
      right. right. exact H.
    + right. right. now rewrite H.
Qed.

Section GroupByShape.
Context {K : Type} (eq_dec : forall x y : K, {x = y} + {x <> y})
        (lt : K -> K -> bool).

Lemma dropna_In (keys : list (option K)) (k : K) :
  In k (Pd.dropna keys) <-> In (Some k) keys.
Proof.
  induction keys as [|[k'|] keys IH]; simpl.
  - tauto.
  - rewrite IH. intuition congruence.
  - rewrite IH. intuition congruence.
Qed.

(** A row of a grouping is a key that occurs, with the number of its
    occurrences, which is at least one. *)
Lemma groupby_size_In (keys : list (option K)) (k : K) (n : nat) :
  In (k, n) (Pd.groupby_size eq_dec lt keys) <->
  In (Some k) keys /\ n = count_occ eq_dec (Pd.dropna keys) k /\ 1 <= n.
Proof.
  unfold Pd.groupby_size. rewrite in_map_iff. split.
  - intros [k' [Heq Hk]]. injection Heq as <- <-.
    apply (Permutation_in _ (sorted_perm lt _)), unique_In in Hk.
    split; [now apply dropna_In|]. split; [reflexivity|].
    now apply (count_occ_In eq_dec).
  - intros [Hk [-> _]]. exists k. split; [reflexivity|].
    apply (Permutation_in _ (Permutation_sym (sorted_perm lt _))), unique_In.
    now apply dropna_In.
Qed.

Lemma groupby_size_ascending (keys : list (option K)) :
  strict_total lt ->
  StronglySorted (fun a b => lt a b = true)
                 (map fst (Pd.groupby_size eq_dec lt keys)).
Proof.
  intros Hlt. unfold Pd.groupby_size. rewrite map_map. simpl. rewrite map_id.
  apply sorted_unique_strict.
  - now apply strict_total_may_precede_strict.
  - apply (Permutation_NoDup (Permutation_sym (sorted_perm lt _))). apply unique_NoDup.
  - apply sorted_sorted;
      [now apply strict_total_asym | now apply strict_total_may_precede_trans].
Qed.

End GroupByShape.

(** Both tables of figures that the callback returns list their groups in
    strictly ascending order of the key, state then source for Table A and
    year then source for Table B, so no group is listed twice. *)
Theorem tables_in_key_order :
  forall (rows : list Row) (palette : list string) (sel : Selection)
         (state_chart : Figure string) (time_chart : Figure Z),
    update_graphs rows palette [yearMin sel; yearMax sel]
                  (sel_states sel) (sel_sources sel)
    = Ok (state_chart, time_chart) ->
    StronglySorted (fun a b => lex_lt String.ltb String.ltb a b = true)
                   (map fst (data_frame state_chart)) /\
    NoDup (map fst (data_frame state_chart)) /\
    StronglySorted (fun a b => lex_lt Z.ltb String.ltb a b = true)
                   (map fst (data_frame time_chart)) /\
    NoDup (map fst (data_frame time_chart)).
Proof.
  intros rows palette sel state_chart time_chart Hrun.
  apply update_graphs_inv in Hrun. destruct Hrun as [-> ->].
  assert (HA : strict_total (lex_lt String.ltb String.ltb))
    by (apply lex_lt_strict_total; apply string_ltb_strict_total).
  assert (HB : strict_total (lex_lt Z.ltb String.ltb))
    by (apply lex_lt_strict_total;
        [apply Z_ltb_strict_total | apply string_ltb_strict_total]).
  assert (Hnodup : forall (K : Type) (lt : K -> K -> bool) (l : list K),
             strict_total lt -> StronglySorted (fun a b => lt a b = true) l -> NoDup l).
  { intros K lt l [Hirr _] Hs. induction Hs as [|a l Hs IH Hall]; constructor.
    - intros Hin. rewrite Forall_forall in Hall. specialize (Hall a Hin).
      rewrite Hirr in Hall. discriminate.
    - assumption. }
  unfold table_a, table_b.
  split; [now apply groupby_size_ascending|].
  split; [apply (Hnodup _ _ _ HA); now apply groupby_size_ascending|].
  split; [now apply groupby_size_ascending|].
  apply (Hnodup _ _ _ HB); now apply groupby_size_ascending.
Qed.

Lemma tables_in_key_order_witness :
  exists state_chart time_chart,
    update_graphs ds_eleven_states extended_palette [2020; 2020]%Z
                  ["WA"; "OR"; "TX"]%string ["Solar Grant"%string]
    = Ok (state_chart, time_chart) /\
    NoDup (map fst (data_frame state_chart)).
Proof.
  do 2 eexists. split; [reflexivity|].
  exact (proj1 (proj2
    (@tables_in_key_order ds_eleven_states extended_palette
       {| yearMin := 2020; yearMax := 2020;
          sel_states := ["WA"; "OR"; "TX"]%string;
          sel_sources := ["Solar Grant"%string] |} _ _ eq_refl))).
Defined.

(** Every row of either table of figures that the callback returns stands
    for at least one retained record that the selection includes: its
    count is at least one, its state (Table A) or year (Table B) and its
    source are those of such a record, so a state or source that is not
    selected, or a year out of range, never shows. *)
Theorem table_rows_come_from_included_records :
  forall (rows : list Row) (palette : list string) (sel : Selection)
         (state_chart : Figure string) (time_chart : Figure Z),
    update_graphs rows palette [yearMin sel; yearMax sel]
                  (sel_states sel) (sel_sources sel)
    = Ok (state_chart, time_chart) ->
    (forall st src n,
        In (st, src, n) (data_frame state_chart) ->
        1 <= n /\ In st (sel_states sel) /\ In src (sel_sources sel) /\
        exists r, In r rows /\ row_included sel r /\
                  State r = st /\ Source r = Some src) /\
    (forall y src n,
        In (y, src, n) (data_frame time_chart) ->
        1 <= n /\ (yearMin sel <= y <= yearMax sel)%Z /\ In src (sel_sources sel) /\
        exists r, In r rows /\ row_included sel r /\
                  Fiscal_Year r = y /\ Source r = Some src).
Proof.
  intros rows palette sel state_chart time_chart Hrun.
  apply update_graphs_inv in Hrun. rewrite filtered_data_filter in Hrun.
  destruct Hrun as [-> ->].
  assert (Hkey : forall (A : Type) (f : Row -> A) (a : A) (src : string),
             In (Some (a, src)) (map (two_key f) (filter (row_included_b sel) rows)) ->
             exists r, In r rows /\ row_included sel r /\ f r = a /\ Source r = Some src).
  { intros A f a src Hin. apply in_map_iff in Hin. destruct Hin as [r [Hk Hr]].
    apply filter_In in Hr. destruct Hr as [Hr Hinc].
    apply row_included_b_spec in Hinc. exists r.
    unfold two_key in Hk. destruct (Source r) as [s|]; [|discriminate].
    simpl in Hk. injection Hk as <- <-. auto. }
  split.
  - intros st src n Hin. unfold table_a in Hin.
    apply groupby_size_In in Hin. destruct Hin as [Hk [_ Hn]].
    destruct (Hkey _ State st src Hk) as [r [Hr [Hinc [Hst Hsrc]]]].
    split; [assumption|].
    pose proof Hinc as [Hy [Hs [s [Hs1 Hs2]]]].
    assert (s = src) by congruence. subst s.
    split; [now rewrite <- Hst|]. split; [assumption|].
    exists r. auto.
  - intros y src n Hin. unfold table_b in Hin.
    apply groupby_size_In in Hin. destruct Hin as [Hk [_ Hn]].
    destruct (Hkey _ Fiscal_Year y src Hk) as [r [Hr [Hinc [Hyr Hsrc]]]].
    split; [assumption|].
    pose proof Hinc as [Hy [Hs [s [Hs1 Hs2]]]].
    assert (s = src) by congruence. subst s.
    split; [now rewrite <- Hyr|]. split; [assumption|].
    exists r. auto.
Qed.

Lemma state_counts_complete_witness :
  In ("WA"%string, 3) (state_counts ds_eleven_states) /\
  3 = state_count ds_eleven_states "WA".
Proof.
  assert (Hin : In ("WA"%string, 3) (state_counts ds_eleven_states))
    by (vm_compute; intuition).
  split; [exact Hin|].
  exact (proj1 (proj1 (proj2 (state_counts_complete ds_eleven_states)) _ _ Hin)).
Defined.

Lemma table_rows_come_from_included_records_witness :
  exists state_chart time_chart,
    update_graphs ds_eleven_states extended_palette [2020; 2020]%Z
                  ["WA"; "ZZ"]%string ["Solar Grant"%string]
    = Ok (state_chart, time_chart) /\
    In ("WA"%string, "Solar Grant"%string, 3) (data_frame state_chart) /\
    In "WA"%string ["WA"; "ZZ"]%string.
Proof.
  do 2 eexists. split; [reflexivity|].
  assert (Hin : In ("WA"%string, "Solar Grant"%string, 3)
                   [("WA"%string, "Solar Grant"%string, 3)]) by (left; reflexivity).
  split; [exact Hin|].
  exact (proj1 (proj2 (proj1
    (@table_rows_come_from_included_records ds_eleven_states extended_palette
       {| yearMin := 2020; yearMax := 2020;
          sel_states := ["WA"; "ZZ"]%string;
          sel_sources := ["Solar Grant"%string] |} _ _ eq_refl) _ _ _ Hin))).
Defined.

(** The sources of the rows of both tables are selected sources. *)
Lemma table_rows_selected (rows : list Row) (sel : Selection) :
  (forall st src n,
      In (st, src, n) (table_a (filter (row_included_b sel) rows)) ->
      In src (sel_sources sel)) /\
  (forall y src n,
      In (y, src, n) (table_b (filter (row_included_b sel) rows)) ->
      In src (sel_sources sel)).
Proof.
  assert (Hkey : forall (A : Type) (f : Row -> A) (a : A) (src : string),
             In (Some (a, src)) (map (two_key f) (filter (row_included_b sel) rows)) ->
             In src (sel_sources sel)).
  { intros A f a src Hin. apply in_map_iff in Hin. destruct Hin as [r [Hk Hr]].
    apply filter_In in Hr. destruct Hr as [_ Hinc].
    apply row_included_b_spec in Hinc. destruct Hinc as [_ [_ [s [Hs1 Hs2]]]].
    unfold two_key in Hk. rewrite Hs1 in Hk. simpl in Hk. now injection Hk as _ <-. }
  split.
  - intros st src n Hin. apply groupby_size_In in Hin. now apply (Hkey _ State st).
  - intros y src n Hin. apply groupby_size_In in Hin. now apply (Hkey _ Fiscal_Year y).
Qed.

(** ** The colours handed to the figures *)



(** ** The converse of the filter, at a concrete input *)

Lemma renewable_complete_witness :
  In (mkRow (Some "Solar Grant"%string) "CA" 2020) ds_scenario /\
  In (mkRow (Some "Solar Grant"%string) "CA" 2020) (renewable ds_scenario).
Proof.
  assert (Hin : In (mkRow (Some "Solar Grant"%string) "CA" 2020) ds_scenario)
    by (left; reflexivity).
  split; [exact Hin|].
  refine (@renewable_complete ds_scenario _ Hin _).
  intros s kw Hs Hkw Hc. injection Hs as <-.
  assert (Hfound : Re.search exclusion_pattern true "Solar Grant" = true).
  { unfold Re.search. rewrite exclusion_pattern_branches.
    apply search_from_contains. now exists kw. }
  discriminate Hfound.
Defined.
